(** * Msoo's Beddings payment backend: the Pesapal handlers

    A shallow embedding of [index.js]: the order-submission handler, the
    IPN callback handler with its Firestore transaction, and the
    transaction-status handler.  The file holds the Express server and, below
    it, the serverless variant of the same three handlers; the two agree on
    everything modelled here except the status mapping, which is written as
    an [else if] chain in one and as three independent [if]s in the other:
    both are embedded.

    Conventions.
    - JavaScript values that come from JSON (request bodies, gateway replies)
      are [JS.val].  Numbers are integers ([Z]): the handlers only compare
      them with [===] or pass them through.
    - Query parameters are strings; a parameter that was not sent reads as
      [None] (JavaScript's [undefined]).
    - Order and User documents are records; the numeric fields are integers,
      on which [Math.floor (x / 100)] is [Z.div x 100].  JavaScript computes
      on doubles, which agree with [Z] as long as operands and results stay
      below 2^53 in absolute value ([exactPoints]).
    - A store update refuses data that holds [undefined], as the Admin SDK
      does unless [ignoreUndefinedProperties] is set, which the backend does
      not do; inside a transaction the refusal aborts it.
    - The payment gateway and the clock are outside the program: one
      invocation of a handler runs against an [Env] that says what each
      outbound call answers and what [new Date()] reads.
    - A handler is a computation over the document store and a trace of the
      effects it performed (outbound calls, store operations, log lines). *)

From Stdlib Require Import ZArith String Ascii List.
From stdpp Require Import gmap strings.

Local Open Scope Z_scope.
Local Open Scope string_scope.
Local Open Scope list_scope.

(** ** JavaScript values and the operators the handlers use *)

Module JS.

#[local] Unset Elimination Schemes.
Inductive val : Type :=
| Undefined
| Null
| Bool (b : bool)
| Num (n : Z)
| Str (s : string)
| Arr (items : list val)
| Obj (fields : gmap string val).
#[local] Set Elimination Schemes.

Inductive exn : Type :=
| TypeError (what : string)
| Error (message : val)
| RequestFailed          (* a rejected axios promise *)
| NotFound (path : string). (* the store rejecting an update of a missing document *)

Inductive result (A : Type) : Type :=
| Ok (a : A)
| Throw (e : exn).
Arguments Ok {A} a.
Arguments Throw {A} e.

(** [if (v)], [!v], [v && _], [v || _] *)
Definition truthy (v : val) : bool :=
  match v with
  | Undefined | Null => false
  | Bool b => b
  | Num n => negb (Z.eqb n 0)
  | Str s => negb (String.eqb s "")
  | Arr _ | Obj _ => true
  end.

(** [v.k] for the property names the handlers read; none of them is a
    built-in property of a string, a number, a boolean or an array. *)
Definition getProp (v : val) (k : string) : result val :=
  match v with
  | Undefined => Throw (TypeError "Cannot read properties of undefined")
  | Null => Throw (TypeError "Cannot read properties of null")
  | Obj fields => Ok (default Undefined (fields !! k))
  | _ => Ok Undefined
  end.

(** [const { k } = o] where [o] is known to be an object *)
Definition field (o : gmap string val) (k : string) : val :=
  default Undefined (o !! k).

(** [v === n] for a number literal [n] *)
Definition strictEqNum (v : val) (n : Z) : bool :=
  match v with
  | Num m => Z.eqb m n
  | _ => false
  end.

(** [s.split(c)] for a one-character separator *)
Fixpoint split (sep : ascii) (s : string) : list string :=
  match s with
  | EmptyString => [EmptyString]
  | String c rest =>
      if Ascii.eqb c sep then EmptyString :: split sep rest
      else match split sep rest with
           | [] => [String c EmptyString]
           | w :: ws => String c w :: ws
           end
  end.

(** [a.join(sep)] *)
Fixpoint join (sep : string) (a : list string) : string :=
  match a with
  | [] => ""
  | [x] => x
  | x :: rest => String.append x (String.append sep (join sep rest))
  end.

(** [a.slice(1)] *)
Definition slice1 (a : list string) : list string := tail a.

(** [a[0]] on an array of strings *)
Definition index0 (a : list string) : val :=
  match a with
  | [] => Undefined
  | x :: _ => Str x
  end.

(** [a || b] *)
Definition or (a b : val) : val := if truthy a then a else b.

(** [v?.k] *)
Definition optProp (v : val) (k : string) : val :=
  match v with
  | Obj fields => default Undefined (fields !! k)
  | _ => Undefined
  end.

(** An object literal [{ k1: v1, k2: v2, ... }] *)
Definition object (kvs : list (string * val)) : val :=
  Obj (list_to_map kvs).

(** Whether [undefined] occurs in a value: the value itself, an element of
    an array, or a field of an object, at any depth. *)
Fixpoint hasUndefined (v : val) : bool :=
  match v with
  | Undefined => true
  | Arr items => existsb hasUndefined items
  | Obj fields => map_fold (fun _ x found => hasUndefined x || found) false fields
  | _ => false
  end.

(** [v.split(' ')]: only a string has the method *)
Definition callSplit (v : val) : result (list string) :=
  match v with
  | Str s => Ok (split " "%char s)
  | Undefined => Throw (TypeError "Cannot read properties of undefined")
  | Null => Throw (TypeError "Cannot read properties of null")
  | _ => Throw (TypeError "split is not a function")
  end.

(** [v.substring(0, n)]: only a string has the method; [v] is truthy
    where the handlers call it *)
Definition callSubstring0 (v : val) (n : nat) : result string :=
  match v with
  | Str s => Ok (String.substring 0 n s)
  | Undefined => Throw (TypeError "Cannot read properties of undefined")
  | Null => Throw (TypeError "Cannot read properties of null")
  | _ => Throw (TypeError "substring is not a function")
  end.

Definition bind {A B} (r : result A) (k : A -> result B) : result B :=
  match r with
  | Ok a => k a
  | Throw e => Throw e
  end.

End JS.

Notation "'let?' x ':=' r 'in' k" := (JS.bind r (fun x => k))
  (at level 10, x name, r at level 100, k at level 200).

(** ** The document store *)

Module Firestore.

Record PaymentDetails : Type := {
  trackingId : option string;
  method : JS.val;
  confirmedOn : Z
}.

Record UserRef : Type := { user_id : string }.

(** An order document.  [other] holds the fields the backend never names
    (items, totals, addresses, ...). *)
Record Order : Type := {
  status : string;
  subtotal : Z;
  pointsRedeemed : Z;
  pointsEarned : option Z;
  user : UserRef;
  paymentDetails : option PaymentDetails;
  other : gmap string JS.val
}.

(** A user document; [points] may be absent. *)
Record User : Type := {
  points : option Z;
  profile : gmap string JS.val
}.

Record Db : Type := {
  orders : gmap string Order;
  users : gmap string User
}.

(** The argument of [update]: the fields named are overwritten, the others
    are kept. *)
Record OrderUpdate : Type := {
  set_status : option string;
  set_pointsEarned : option Z;
  set_paymentDetails : option PaymentDetails
}.

Record UserUpdate : Type := { set_points : option Z }.

Inductive Write : Type :=
| UpdateOrder (id : string) (u : OrderUpdate)
| UpdateUser (id : string) (u : UserUpdate).

Definition updateOrderData (u : OrderUpdate) (o : Order) : Order :=
  {| status := default (status o) (set_status u);
     subtotal := subtotal o;
     pointsRedeemed := pointsRedeemed o;
     pointsEarned :=
       match set_pointsEarned u with Some p => Some p | None => pointsEarned o end;
     user := user o;
     paymentDetails :=
       match set_paymentDetails u with Some d => Some d | None => paymentDetails o end;
     other := other o |}.

Definition updateUserData (u : UserUpdate) (x : User) : User :=
  {| points := match set_points u with Some p => Some p | None => points x end;
     profile := profile x |}.

(** [update] checks the data it is handed before anything else: a field
    that is [undefined], or holds [undefined] somewhere inside, is refused
    ([ignoreUndefinedProperties] is not set).  Of the fields the backend
    writes, only the payment details can be so. *)
Definition accepts (w : Write) : bool :=
  match w with
  | UpdateOrder _ u =>
      match set_paymentDetails u with
      | Some d =>
          match trackingId d with
          | Some _ => negb (JS.hasUndefined (method d))
          | None => false
          end
      | None => true
      end
  | UpdateUser _ _ => true
  end.

(** One [update]: it fails, and writes nothing, when the document does not
    exist. *)
Definition applyWrite (w : Write) (db : Db) : option Db :=
  match w with
  | UpdateOrder id u =>
      match orders db !! id with
      | Some o => Some {| orders := <[id := updateOrderData u o]> (orders db);
                          users := users db |}
      | None => None
      end
  | UpdateUser id u =>
      match users db !! id with
      | Some x => Some {| orders := orders db;
                          users := <[id := updateUserData u x]> (users db) |}
      | None => None
      end
  end.

(** The writes of a transaction, committed together or not at all. *)
Fixpoint applyWrites (ws : list Write) (db : Db) : option Db :=
  match ws with
  | [] => Some db
  | w :: rest =>
      match applyWrite w db with
      | Some db' => applyWrites rest db'
      | None => None
      end
  end.

(** [collection(c).doc(path)]: the path must be a non-empty string.
    Document ids are single path segments. *)
Definition doc (c : string) (path : option string) : JS.result string :=
  match path with
  | Some p =>
      if String.eqb p "" then JS.Throw (JS.Error (JS.Str "Path must be a non-empty string."))
      else JS.Ok p
  | None => JS.Throw (JS.Error (JS.Str "Path must be a non-empty string."))
  end.

End Firestore.

(** ** Effects: the world a handler runs in *)

Inductive Event : Type :=
| GwRequestToken                                   (* POST /Auth/RequestToken *)
| GwSubmitOrder (payload token : JS.val)           (* POST /Transactions/SubmitOrderRequest *)
| GwGetStatus (url : string) (token : JS.val)      (* GET /Transactions/GetTransactionStatus *)
| TxBegin
| TxGet (collection id : string)
| TxUpdate (collection id : string)
| TxCommit
| TxAbort
| DocUpdate (collection id : string)               (* a write outside any transaction *)
| Log (line : string).

(** What lies outside the program during one invocation. *)
Record Env : Type := {
  tokenReply : option JS.val;
  submitReply : JS.val -> JS.val -> option JS.val;
  statusReply : string -> JS.val -> option JS.val;
  now : Z
}.

Record Config : Type := {
  API_URL : string;
  IPN_CALLBACK_URL : string;
  REDIRECT_URL : string
}.

Record World : Type := {
  store : Firestore.Db;
  pending : list Firestore.Write;   (* the writes buffered by the open transaction *)
  trace : list Event
}.

Definition M (A : Type) : Type := World -> JS.result A * World.

Definition ret {A} (a : A) : M A := fun w => (JS.Ok a, w).

Definition throw {A} (e : JS.exn) : M A := fun w => (JS.Throw e, w).

Definition bindM {A B} (m : M A) (k : A -> M B) : M B :=
  fun w =>
    match m w with
    | (JS.Ok a, w') => k a w'
    | (JS.Throw e, w') => (JS.Throw e, w')
    end.

Notation "'let!' x ':=' m 'in' k" := (bindM m (fun x => k))
  (at level 10, x name, m at level 100, k at level 200).
Notation "m ';;' k" := (bindM m (fun _ => k))
  (at level 100, k at level 200, right associativity).

(** [try { m } catch (error) { h error }] *)
Definition tryCatch {A} (m : M A) (h : JS.exn -> M A) : M A :=
  fun w =>
    match m w with
    | (JS.Ok a, w') => (JS.Ok a, w')
    | (JS.Throw e, w') => h e w'
    end.

Definition liftR {A} (r : JS.result A) : M A :=
  fun w => (r, w).

Definition emit (e : Event) : M unit :=
  fun w => (JS.Ok tt,
            {| store := store w; pending := pending w; trace := trace w ++ [e] |}).

(** [console.error(line, ...)] *)
Definition consoleError (line : string) : M unit := emit (Log line).

(** An awaited axios call: the reply's [data], or a rejection. *)
Definition await (reply : option JS.val) : M JS.val :=
  match reply with
  | Some data => ret data
  | None => throw JS.RequestFailed
  end.

(** *** Store operations *)

Definition txGetOrder (id : string) : M (option Firestore.Order) :=
  emit (TxGet "orders" id) ;;
  fun w => (JS.Ok (Firestore.orders (store w) !! id), w).

Definition txGetUser (id : string) : M (option Firestore.User) :=
  emit (TxGet "users" id) ;;
  fun w => (JS.Ok (Firestore.users (store w) !! id), w).

Definition writeTarget (wr : Firestore.Write) : string * string :=
  match wr with
  | Firestore.UpdateOrder id _ => ("orders", id)
  | Firestore.UpdateUser id _ => ("users", id)
  end.

Definition invalidData : JS.exn :=
  JS.Error (JS.Str "Cannot use undefined as a Firestore value.").

(** [t.update(ref, data)]: refused at once when the data holds [undefined],
    buffered until the transaction commits otherwise. *)
Definition txUpdate (wr : Firestore.Write) : M unit :=
  if Firestore.accepts wr then
    emit (TxUpdate (fst (writeTarget wr)) (snd (writeTarget wr))) ;;
    fun w => (JS.Ok tt,
              {| store := store w; pending := pending w ++ [wr]; trace := trace w |})
  else throw invalidData.

Definition clearPending : M unit :=
  fun w => (JS.Ok tt, {| store := store w; pending := []; trace := trace w |}).

Definition commit : M unit :=
  fun w =>
    match Firestore.applyWrites (pending w) (store w) with
    | Some db' =>
        (JS.Ok tt, {| store := db'; pending := []; trace := trace w ++ [TxCommit] |})
    | None =>
        (JS.Throw (JS.NotFound "No document to update"),
         {| store := store w; pending := []; trace := trace w ++ [TxAbort] |})
    end.

(** [db.runTransaction(body)]: the body's writes are applied together when
    it returns; when it throws, none is, and the exception is passed on. *)
Definition runTransaction (body : M unit) : M unit :=
  emit TxBegin ;;
  clearPending ;;
  tryCatch body (fun e => clearPending ;; emit TxAbort ;; throw e) ;;
  commit.

(** [ref.update(data)] outside a transaction. *)
Definition docUpdate (wr : Firestore.Write) : M unit :=
  if Firestore.accepts wr then
    emit (DocUpdate (fst (writeTarget wr)) (snd (writeTarget wr))) ;;
    fun w =>
      match Firestore.applyWrite wr (store w) with
      | Some db' => (JS.Ok tt, {| store := db'; pending := pending w; trace := trace w |})
      | None => (JS.Throw (JS.NotFound "No document to update"), w)
      end
  else throw invalidData.

(** ** Requests and responses *)

Record Request : Type := {
  query : gmap string string;   (* req.query *)
  body : gmap string JS.val     (* req.body, the parsed JSON object *)
}.

Inductive Content : Type :=
| Json (v : JS.val)
| Text (s : string).

Record Response : Type := {
  code : Z;
  content : Content
}.

(** [res.status(c).json(v)] and [res.status(c).send(s)]; [res.json(v)]
    alone answers 200. *)
Definition json (c : Z) (v : JS.val) : M Response :=
  ret {| code := c; content := Json v |}.

Definition send (c : Z) (s : string) : M Response :=
  ret {| code := c; content := Text s |}.

(** [!p] for a query parameter *)
Definition paramTruthy (p : option string) : bool :=
  match p with
  | Some s => negb (String.eqb s "")
  | None => false
  end.

(** A query parameter inside a template literal *)
Definition interpolate (p : option string) : string :=
  match p with
  | Some s => s
  | None => "undefined"
  end.

(** ** The handlers *)

Section Handlers.

Variable PESAPAL_CONFIG : Config.
Variable env : Env.

Definition getPesapalAuthToken : M JS.val :=
  tryCatch
    (emit GwRequestToken ;;
     let! data := await (tokenReply env) in
     liftR (JS.getProp data "token"))
    (fun error =>
       consoleError "Error getting Pesapal token:" ;;
       throw (JS.Error (JS.Str "Could not authenticate with Pesapal."))).

(** [order.user.name.split(' ')] *)
Definition nameParts (order : JS.val) : JS.result (list string) :=
  let? u := JS.getProp order "user" in
  let? name := JS.getProp u "name" in
  JS.callSplit name.

(** The object literal [pesapalOrderData], its properties evaluated in the
    order they are written. *)
Definition pesapalOrderData (order orderId : JS.val) : JS.result JS.val :=
  let? amount := JS.getProp order "total" in
  let? prefix := JS.callSubstring0 orderId 8 in
  let? email_address := (let? u := JS.getProp order "user" in JS.getProp u "email") in
  let? phone_number := (let? u := JS.getProp order "user" in JS.getProp u "phone") in
  let? first_name := (let? parts := nameParts order in JS.Ok (JS.index0 parts)) in
  let? last_name :=
    (let? parts := nameParts order in
     let rest := JS.Str (JS.join " " (JS.slice1 parts)) in
     if JS.truthy rest then JS.Ok rest
     else let? parts' := nameParts order in JS.Ok (JS.index0 parts')) in
  JS.Ok (JS.object
    [ ("id", orderId);
      ("currency", JS.Str "KES");
      ("amount", amount);
      ("description", JS.Str (String.append "Payment for Order #" prefix));
      ("callback_url", JS.Str (REDIRECT_URL PESAPAL_CONFIG));
      ("notification_id", JS.Str (IPN_CALLBACK_URL PESAPAL_CONFIG));
      ("billing_address", JS.object
         [ ("email_address", email_address);
           ("phone_number", phone_number);
           ("first_name", first_name);
           ("last_name", last_name) ]) ]).

(** POST /api/pesapal/order *)
Definition handleOrder (req : Request) : M Response :=
  let order := JS.field (body req) "order" in
  let orderId := JS.field (body req) "orderId" in
  if negb (JS.truthy order) || negb (JS.truthy orderId) then
    json 400 (JS.object [ ("success", JS.Bool false);
                          ("message", JS.Str "Missing order data.") ])
  else
    tryCatch
      (let! authToken := getPesapalAuthToken in
       let! payload := liftR (pesapalOrderData order orderId) in
       emit (GwSubmitOrder payload authToken) ;;
       let! data := await (submitReply env payload authToken) in
       let! redirect_url :=
         (if JS.truthy data then liftR (JS.getProp data "redirect_url")
          else ret data) in
       if JS.truthy redirect_url then
         json 200 (JS.object [ ("success", JS.Bool true);
                               ("paymentUrl", redirect_url) ])
       else
         let! err := liftR (JS.getProp data "error") in
         throw (JS.Error (JS.or (JS.optProp err "message")
                                (JS.Str "Failed to submit order to Pesapal."))))
      (fun error =>
         consoleError "Pesapal order submission failed:" ;;
         json 500 (JS.object
           [ ("success", JS.Bool false);
             ("message", JS.Str "Server error while creating payment request.") ])).

(** [userData.points || 0] *)
Definition pointsOrZero (p : option Z) : Z :=
  match p with
  | Some n => if Z.eqb n 0 then 0 else n
  | None => 0
  end.

(** The function handed to [db.runTransaction] by the callback handler. *)
Definition completedTransaction
    (orderId : string) (OrderTrackingId : option string) (data : JS.val) : M unit :=
  let! orderDoc := txGetOrder orderId in
  match orderDoc with
  | None => throw (JS.Error (JS.Str "Order not found!"))
  | Some orderData =>
      if String.eqb (Firestore.status orderData) "Processing" then ret tt
      else
        let! userId :=
          liftR (Firestore.doc "users"
                   (Some (Firestore.user_id (Firestore.user orderData)))) in
        let! userDoc := txGetUser userId in
        match userDoc with
        | None => throw (JS.Error (JS.Str "User not found!"))
        | Some userData =>
            let pointsEarned := Z.div (Firestore.subtotal orderData) 100 in
            let newPointsTotal :=
              pointsOrZero (Firestore.points userData)
              - Firestore.pointsRedeemed orderData + pointsEarned in
            let! method := liftR (JS.getProp data "payment_method") in
            txUpdate (Firestore.UpdateOrder orderId
              {| Firestore.set_status := Some "Processing";
                 Firestore.set_pointsEarned := Some pointsEarned;
                 Firestore.set_paymentDetails :=
                   Some {| Firestore.trackingId := OrderTrackingId;
                           Firestore.method := method;
                           Firestore.confirmedOn := now env |} |}) ;;
            txUpdate (Firestore.UpdateUser userId
              {| Firestore.set_points := Some newPointsTotal |})
        end
  end.

Definition paymentFailed : Firestore.OrderUpdate :=
  {| Firestore.set_status := Some "Payment Failed";
     Firestore.set_pointsEarned := None;
     Firestore.set_paymentDetails := None |}.

(** GET /api/pesapal/callback *)
Definition handleCallback (req : Request) : M Response :=
  let OrderTrackingId := query req !! "OrderTrackingId" in
  let OrderMerchantReference := query req !! "OrderMerchantReference" in
  if negb (paramTruthy OrderTrackingId) || negb (paramTruthy OrderMerchantReference) then
    send 400 "Invalid IPN request."
  else
    tryCatch
      (let! authToken := getPesapalAuthToken in
       let statusUrl :=
         String.append (API_URL PESAPAL_CONFIG)
           (String.append "/Transactions/GetTransactionStatus?orderTrackingId="
                          (interpolate OrderTrackingId)) in
       emit (GwGetStatus statusUrl authToken) ;;
       let! data := await (statusReply env statusUrl authToken) in
       let! status_code := liftR (JS.getProp data "status_code") in
       (if JS.strictEqNum status_code 1 then
          let! orderId := liftR (Firestore.doc "orders" OrderMerchantReference) in
          runTransaction (completedTransaction orderId OrderTrackingId data)
        else
          let! orderId := liftR (Firestore.doc "orders" OrderMerchantReference) in
          docUpdate (Firestore.UpdateOrder orderId paymentFailed)) ;;
       send 200 "Callback received successfully.")
      (fun error =>
         consoleError "Error in IPN callback handler:" ;;
         send 500 "Error processing IPN.").

(** The status mapping of the Express route: an [else if] chain. *)
Definition statusExpress (status_code : JS.val) : string :=
  if JS.strictEqNum status_code 1 then "COMPLETED"
  else if JS.strictEqNum status_code 2 || JS.strictEqNum status_code 0 then "FAILED"
  else if JS.strictEqNum status_code 3 then "PENDING"
  else "INVALID".

(** The status mapping of the serverless [handleTransactionStatus]: three
    independent [if]s, each overwriting [status]. *)
Definition statusServerless (status_code : JS.val) : string :=
  let status := "INVALID" in
  let status := if JS.strictEqNum status_code 1 then "COMPLETED" else status in
  let status :=
    if JS.strictEqNum status_code 2 || JS.strictEqNum status_code 0 then "FAILED"
    else status in
  let status := if JS.strictEqNum status_code 3 then "PENDING" else status in
  status.

(** GET /api/pesapal/transaction-status, for either mapping *)
Definition transactionStatus (mapping : JS.val -> string) (req : Request) : M Response :=
  let pesapalTrackingId := query req !! "pesapalTrackingId" in
  if negb (paramTruthy pesapalTrackingId) then
    json 400 (JS.object [ ("status", JS.Str "INVALID");
                          ("description", JS.Str "Missing tracking ID.") ])
  else
    tryCatch
      (let! authToken := getPesapalAuthToken in
       let statusUrl :=
         String.append (API_URL PESAPAL_CONFIG)
           (String.append "/Transactions/GetTransactionStatus?orderTrackingId="
                          (interpolate pesapalTrackingId)) in
       emit (GwGetStatus statusUrl authToken) ;;
       let! data := await (statusReply env statusUrl authToken) in
       let! status_code := liftR (JS.getProp data "status_code") in
       let! payment_method := liftR (JS.getProp data "payment_method") in
       let! description := liftR (JS.getProp data "description") in
       json 200 (JS.object [ ("status", JS.Str (mapping status_code));
                             ("payment_method", payment_method);
                             ("description", description) ]))
      (fun error =>
         consoleError "Error getting transaction status:" ;;
         json 500 (JS.object
           [ ("status", JS.Str "FAILED");
             ("description", JS.Str "Server error while verifying status.") ])).

Definition handleTransactionStatusExpress : Request -> M Response :=
  transactionStatus statusExpress.

Definition handleTransactionStatus : Request -> M Response :=
  transactionStatus statusServerless.

(** The routes of the Express application. *)
Inductive Route : Type :=
| ApiHealth
| ApiRoot
| PesapalOrder
| PesapalCallback
| PesapalTransactionStatus
| ApiOther.

Definition app (r : Route) (req : Request) : M Response :=
  match r with
  | ApiHealth =>
      json 200 (JS.object [ ("status", JS.Str "ok");
                            ("message", JS.Str "Backend is healthy") ])
  | ApiRoot => send 200 "✅ Backend is working 🚀"
  | PesapalOrder => handleOrder req
  | PesapalCallback => handleCallback req
  | PesapalTransactionStatus => handleTransactionStatusExpress req
  | ApiOther => json 404 (JS.object [ ("message", JS.Str "API endpoint not found") ])
  end.

End Handlers.

(** A handler is run on a store, outside any transaction and with an empty
    trace. *)
Definition run {A} (m : M A) (db : Firestore.Db) : JS.result A * World :=
  m {| store := db; pending := []; trace := [] |}.

(** ** Notions used to state the properties *)

(** The world after some more events were recorded. *)
Definition logged (w : World) (evs : list Event) : World :=
  {| store := store w; pending := pending w; trace := trace w ++ evs |}.

(** The token [getPesapalAuthToken] returns, when it returns one. *)
Definition authToken (env : Env) : option JS.val :=
  match tokenReply env with
  | Some data =>
      match JS.getProp data "token" with
      | JS.Ok t => Some t
      | JS.Throw _ => None
      end
  | None => None
  end.

Definition statusUrlOf (cfg : Config) (trackingId : option string) : string :=
  String.append (API_URL cfg)
    (String.append "/Transactions/GetTransactionStatus?orderTrackingId="
                   (interpolate trackingId)).

(** The reply to a fresh status query for a tracking id: authentication
    followed by [GetTransactionStatus]. *)
Definition queriedStatus (cfg : Config) (env : Env) (trackingId : option string)
  : option JS.val :=
  match authToken env with
  | Some tok => statusReply env (statusUrlOf cfg trackingId) tok
  | None => None
  end.

(** The [status_code] of that reply. *)
Definition queriedStatusCode (cfg : Config) (env : Env) (trackingId : option string)
  : option JS.val :=
  match queriedStatus cfg env trackingId with
  | Some data =>
      match JS.getProp data "status_code" with
      | JS.Ok sc => Some sc
      | JS.Throw _ => None
      end
  | None => None
  end.

(** The events that touch the document store. *)
Definition isStoreEvent (e : Event) : bool :=
  match e with
  | TxBegin | TxGet _ _ | TxUpdate _ _ | TxCommit | TxAbort | DocUpdate _ _ => true
  | _ => false
  end.

Definition isWrite (e : Event) : bool :=
  match e with
  | TxUpdate _ _ | DocUpdate _ _ => true
  | _ => false
  end.

Definition isGatewayCall (e : Event) : bool :=
  match e with
  | GwRequestToken | GwSubmitOrder _ _ | GwGetStatus _ _ => true
  | _ => false
  end.

(** The documents the completed transaction writes for an order [o] of
    user [u]. *)
Definition processedOrder (env : Env) (tid : option string) (data : JS.val)
    (o : Firestore.Order) : Firestore.Order :=
  {| Firestore.status := "Processing";
     Firestore.subtotal := Firestore.subtotal o;
     Firestore.pointsRedeemed := Firestore.pointsRedeemed o;
     Firestore.pointsEarned := Some (Firestore.subtotal o / 100);
     Firestore.user := Firestore.user o;
     Firestore.paymentDetails :=
       Some {| Firestore.trackingId := tid;
               Firestore.method := JS.optProp data "payment_method";
               Firestore.confirmedOn := now env |};
     Firestore.other := Firestore.other o |}.

Definition creditedUser (o : Firestore.Order) (u : Firestore.User) : Firestore.User :=
  {| Firestore.points :=
       Some (default 0 (Firestore.points u) - Firestore.pointsRedeemed o
             + Firestore.subtotal o / 100);
     Firestore.profile := Firestore.profile u |}.

(** An order whose status alone was set to 'Payment Failed'. *)
Definition failedOrder (o : Firestore.Order) : Firestore.Order :=
  {| Firestore.status := "Payment Failed";
     Firestore.subtotal := Firestore.subtotal o;
     Firestore.pointsRedeemed := Firestore.pointsRedeemed o;
     Firestore.pointsEarned := Firestore.pointsEarned o;
     Firestore.user := Firestore.user o;
     Firestore.paymentDetails := Firestore.paymentDetails o;
     Firestore.other := Firestore.other o |}.

(** The part of a full name before its first space (the whole name when it
    has none), and the remainder after that space. *)
Fixpoint beforeFirstSpace (s : string) : string :=
  match s with
  | EmptyString => EmptyString
  | String c rest =>
      if Ascii.eqb c " " then EmptyString else String c (beforeFirstSpace rest)
  end.

Fixpoint afterFirstSpace (s : string) : option string :=
  match s with
  | EmptyString => None
  | String c rest => if Ascii.eqb c " " then Some rest else afterFirstSpace rest
  end.

(** The last name sent to the gateway: the remainder after the first space
    when there is one and it is not empty, the first name otherwise. *)
Definition lastNameOf (name : string) : string :=
  match afterFirstSpace name with
  | Some rest => if String.eqb rest "" then beforeFirstSpace name else rest
  | None => beforeFirstSpace name
  end.

(** The last name read as "the remainder after the first space, or the first
    name when the name has no space". *)
Definition remainderOrFirstName (name : string) : string :=
  match afterFirstSpace name with
  | Some rest => rest
  | None => beforeFirstSpace name
  end.

(** Whether [order.user.name] is a string. *)
Definition hasBillingName (order : JS.val) : bool :=
  match JS.getProp order "user" with
  | JS.Ok u =>
      match JS.getProp u "name" with
      | JS.Ok (JS.Str _) => true
      | _ => false
      end
  | JS.Throw _ => false
  end.

(** The gateway order request for a well-formed submission. *)
Definition orderRequest (cfg : Config) (order : JS.val) (oid name : string) : JS.val :=
  JS.object
    [ ("id", JS.Str oid);
      ("currency", JS.Str "KES");
      ("amount", JS.optProp order "total");
      ("description", JS.Str (String.append "Payment for Order #" (String.substring 0 8 oid)));
      ("callback_url", JS.Str (REDIRECT_URL cfg));
      ("notification_id", JS.Str (IPN_CALLBACK_URL cfg));
      ("billing_address", JS.object
         [ ("email_address", JS.optProp (JS.optProp order "user") "email");
           ("phone_number", JS.optProp (JS.optProp order "user") "phone");
           ("first_name", JS.Str (beforeFirstSpace name));
           ("last_name", JS.Str (lastNameOf name)) ]) ].

(** A computation that leaves the store, and the open transaction's buffer,
    as it found them. *)
Definition readOnly {A} (m : M A) : Prop :=
  forall w, store (snd (m w)) = store w /\ pending (snd (m w)) = pending w.

(** The responses of the handlers. *)
Definition missingOrderData : Response :=
  {| code := 400;
     content := Json (JS.object [ ("success", JS.Bool false);
                                  ("message", JS.Str "Missing order data.") ]) |}.

Definition paymentRequestFailed : Response :=
  {| code := 500;
     content := Json (JS.object
       [ ("success", JS.Bool false);
         ("message", JS.Str "Server error while creating payment request.") ]) |}.

Definition callbackReceived : Response :=
  {| code := 200; content := Text "Callback received successfully." |}.

Definition ipnError : Response :=
  {| code := 500; content := Text "Error processing IPN." |}.

(** The closed status enum, as the specification tabulates it. *)
Definition getStatusEnum (status_code : JS.val) : string :=
  match status_code with
  | JS.Num 1 => "COMPLETED"
  | JS.Num 0 => "FAILED"
  | JS.Num 2 => "FAILED"
  | JS.Num 3 => "PENDING"
  | _ => "INVALID"
  end.

Definition statusAnswer (data sc : JS.val) : Response :=
  {| code := 200;
     content := Json (JS.object
       [ ("status", JS.Str (getStatusEnum sc));
         ("payment_method", JS.optProp data "payment_method");
         ("description", JS.optProp data "description") ]) |}.

(** "Processing is terminal", read over every handler invocation. *)
Definition ProcessingIsTerminal : Prop :=
  forall cfg env route req db id o,
    Firestore.orders db !! id = Some o ->
    Firestore.status o = "Processing" ->
    exists o',
      Firestore.orders (store (snd (run (app cfg env route req) db))) !! id = Some o'
      /\ Firestore.status o' = "Processing".

(** A callback for order [id] whose freshly queried status code is not 1. *)
Definition failedCallbackFor
    (cfg : Config) (env : Env) (route : Route) (req : Request) (id : string) : Prop :=
  route = PesapalCallback
  /\ query req !! "OrderMerchantReference" = Some id
  /\ id <> ""
  /\ paramTruthy (query req !! "OrderTrackingId") = true
  /\ exists sc,
       queriedStatusCode cfg env (query req !! "OrderTrackingId") = Some sc
       /\ JS.strictEqNum sc 1 = false.

(** "The last name is the remainder after the first space, or the first
    name when there is no space", read over every well-formed submission. *)
Definition LastNameIsRemainder : Prop :=
  forall cfg order u oid name,
    JS.getProp order "user" = JS.Ok u ->
    JS.getProp u "name" = JS.Ok (JS.Str name) ->
    exists p b,
      pesapalOrderData cfg order (JS.Str oid) = JS.Ok p
      /\ JS.getProp p "billing_address" = JS.Ok b
      /\ JS.getProp b "last_name" = JS.Ok (JS.Str (remainderOrFirstName name)).

(** ** Scenarios *)

Module Scenario.

Definition config : Config :=
  {| API_URL := "https://cybqa.pesapal.com/pesapalv3/api";
     IPN_CALLBACK_URL := "http://localhost:3000/api/pesapal/callback";
     REDIRECT_URL := "http://localhost:3000/#/pesapal-callback" |}.

(** A gateway that authenticates and reports the given status code. *)
Definition gateway (status_code : Z) (clock : Z) : Env :=
  {| tokenReply := Some (JS.object [ ("token", JS.Str "tok") ]);
     submitReply := fun _ _ =>
       Some (JS.object [ ("redirect_url", JS.Str "https://pay.example/redirect") ]);
     statusReply := fun _ _ =>
       Some (JS.object [ ("status_code", JS.Num status_code);
                         ("payment_method", JS.Str "MpesaKE");
                         ("description", JS.Str "ok") ]);
     now := clock |}.

Definition order (st : string) : Firestore.Order :=
  {| Firestore.status := st;
     Firestore.subtotal := 250;
     Firestore.pointsRedeemed := 10;
     Firestore.pointsEarned := None;
     Firestore.user := {| Firestore.user_id := "u1" |};
     Firestore.paymentDetails := None;
     Firestore.other := ∅ |}.

Definition user : Firestore.User :=
  {| Firestore.points := Some 40; Firestore.profile := ∅ |}.

Definition db (st : string) : Firestore.Db :=
  {| Firestore.orders := {[ "o1" := order st ]};
     Firestore.users := {[ "u1" := user ]} |}.

(** The same store without the user document. *)
Definition dbNoUser : Firestore.Db :=
  {| Firestore.orders := {[ "o1" := order "Pending" ]};
     Firestore.users := ∅ |}.

(** The provider's notification, and one that also carries a status of its
    own. *)
Definition callback : Request :=
  {| query := list_to_map [ ("OrderTrackingId", "t1");
                            ("OrderMerchantReference", "o1") ];
     body := ∅ |}.

Definition forgedCallback : Request :=
  {| query := list_to_map [ ("OrderTrackingId", "t1");
                            ("OrderMerchantReference", "o1");
                            ("status", "COMPLETED");
                            ("status_code", "1") ];
     body := list_to_map [ ("status_code", JS.Num 1) ] |}.

Definition statusQuery : Request :=
  {| query := list_to_map [ ("pesapalTrackingId", "t1") ]; body := ∅ |}.

Definition submittedOrder (name : string) : JS.val :=
  JS.object [ ("total", JS.Num 500);
              ("user", JS.object [ ("email", JS.Str "a@b.com");
                                   ("phone", JS.Str "1");
                                   ("name", JS.Str name) ]) ].

Definition submission (name : string) : Request :=
  {| query := ∅;
     body := list_to_map [ ("order", submittedOrder name);
                           ("orderId", JS.Str "abcdef1234") ] |}.

(** A submission without [orderId], and one whose order is an empty
    object. *)
Definition submissionNoId : Request :=
  {| query := ∅; body := list_to_map [ ("order", submittedOrder "Jo Doe") ] |}.

Definition submissionEmptyOrder : Request :=
  {| query := ∅;
     body := list_to_map [ ("order", JS.object []);
                           ("orderId", JS.Str "abcdef1234") ] |}.

End Scenario.

(** ** The rest of the program

    What follows embeds the code around the three handlers: the
    configuration object, and the serverless entry point that sets the CORS
    headers and routes by method and path. *)

(** [v || d] for an environment variable *)
Definition orDefault (v : option string) (d : string) : string :=
  match v with
  | Some s => if String.eqb s "" then d else s
  | None => d
  end.

(** The consumer key and secret of [PESAPAL_CONFIG]: read from
    [process.env] as they are, [undefined] when unset.  They go into the body
    of the token request and nowhere else. *)
Record Credentials : Type := {
  CONSUMER_KEY : option string;
  CONSUMER_SECRET : option string
}.

Definition credentials (processEnv : gmap string string) : Credentials :=
  {| CONSUMER_KEY := processEnv !! "PESAPAL_CONSUMER_KEY";
     CONSUMER_SECRET := processEnv !! "PESAPAL_CONSUMER_SECRET" |}.

(** The URLs of [PESAPAL_CONFIG] in the Express server, read from
    [process.env]. *)
Definition expressConfig (processEnv : gmap string string) : Config :=
  {| API_URL :=
       orDefault (processEnv !! "PESAPAL_API_URL")
                 "https://cybqa.pesapal.com/pesapalv3/api";
     IPN_CALLBACK_URL :=
       String.append (orDefault (processEnv !! "APP_BASE_URL") "http://localhost:3000")
                     "/api/pesapal/callback";
     REDIRECT_URL :=
       String.append (orDefault (processEnv !! "APP_BASE_URL") "http://localhost:3000")
                     "/#/pesapal-callback" |}.

(** The URLs of [PESAPAL_CONFIG] in the serverless function. *)
Definition serverlessConfig (processEnv : gmap string string) : Config :=
  {| API_URL :=
       orDefault (processEnv !! "PESAPAL_API_URL")
                 "https://cybqa.pesapal.com/pesapalv3/api";
     IPN_CALLBACK_URL :=
       String.append "https://"
         (String.append (interpolate (processEnv !! "VERCEL_URL"))
                        "/api/pesapal/callback");
     REDIRECT_URL :=
       String.append (orDefault (processEnv !! "APP_BASE_URL") "http://localhost:3000")
                     "/#/pesapal-callback" |}.

Module Serverless.

(** [s.endsWith(suffix)] *)
Definition endsWith (s suffix : string) : bool :=
  let n := String.length s in
  let m := String.length suffix in
  (m <=? n)%nat && String.eqb (String.substring (n - m) m s) suffix.

(** The request as the entry point reads it: [pathname] is the path
    component of [req.url]. *)
Record VercelRequest : Type := {
  method : option string;
  pathname : string;
  request : Request
}.

Inductive Sent : Type :=
| Ended (status : Z)          (* res.status(c).end() *)
| Answered (r : Response).

Record Reply : Type := {
  headers : list (string * string);
  sent : Sent
}.

Definition corsHeaders (processEnv : gmap string string) : list (string * string) :=
  [ ("Access-Control-Allow-Credentials", "true");
    ("Access-Control-Allow-Origin",
     orDefault (processEnv !! "APP_BASE_URL") "http://localhost:5173");
    ("Access-Control-Allow-Methods", "GET,OPTIONS,POST");
    ("Access-Control-Allow-Headers", "Content-Type, Authorization") ].

Definition methodIs (req : VercelRequest) (m : string) : bool :=
  match method req with
  | Some x => String.eqb x m
  | None => false
  end.

(** A handler's response, under the headers already set. *)
Definition answer (hs : list (string * string)) (m : M Response) : M Reply :=
  let! r := m in ret {| headers := hs; sent := Answered r |}.

(** The exported [handler]. *)
Definition handler (processEnv : gmap string string) (env : Env) (req : VercelRequest)
  : M Reply :=
  let cfg := serverlessConfig processEnv in
  let hs := corsHeaders processEnv in
  let path := pathname req in
  if methodIs req "OPTIONS" then ret {| headers := hs; sent := Ended 200 |}
  else if String.eqb path "/api" || String.eqb path "/api/" then
    answer hs (send 200 "✅ Backend is working 🚀")
  else if endsWith path "/health" && methodIs req "GET" then
    answer hs (json 200 (JS.object [ ("status", JS.Str "ok");
                                     ("message", JS.Str "Backend is healthy") ]))
  else if endsWith path "/pesapal/order" && methodIs req "POST" then
    answer hs (handleOrder cfg env (request req))
  else if endsWith path "/pesapal/callback" && methodIs req "GET" then
    answer hs (handleCallback cfg env (request req))
  else if endsWith path "/pesapal/transaction-status" && methodIs req "GET" then
    answer hs (handleTransactionStatus cfg env (request req))
  else
    answer hs (json 404 (JS.object [ ("message", JS.Str "Not Found") ])).

End Serverless.

(** ** More notions used to state properties *)

(** The remaining responses of the handlers. *)
Definition invalidIpn : Response :=
  {| code := 400; content := Text "Invalid IPN request." |}.

Definition paymentCreated (redirect_url : JS.val) : Response :=
  {| code := 200;
     content := Json (JS.object [ ("success", JS.Bool true);
                                  ("paymentUrl", redirect_url) ]) |}.

Definition missingTrackingId : Response :=
  {| code := 400;
     content := Json (JS.object [ ("status", JS.Str "INVALID");
                                  ("description", JS.Str "Missing tracking ID.") ]) |}.

Definition statusCheckFailed : Response :=
  {| code := 500;
     content := Json (JS.object
       [ ("status", JS.Str "FAILED");
         ("description", JS.Str "Server error while verifying status.") ]) |}.

(** The redirect URL in a reply to [SubmitOrderRequest], when the reply has
    a truthy one. *)
Definition redirectUrl (reply : option JS.val) : option JS.val :=
  match reply with
  | Some data =>
      if JS.truthy data && JS.truthy (JS.optProp data "redirect_url")
      then Some (JS.optProp data "redirect_url")
      else None
  | None => None
  end.

Definition isRequestToken (e : Event) : bool :=
  match e with
  | GwRequestToken => true
  | _ => false
  end.

(** Events other than store operations, and other than token requests. *)
Definition notStore (e : Event) : bool := negb (isStoreEvent e).
Definition notToken (e : Event) : bool := negb (isRequestToken e).

(** A computation that only adds events satisfying [P] to the trace. *)
Definition emitsOnly {A} (P : Event -> bool) (m : M A) : Prop :=
  forall w, exists evs,
    trace (snd (m w)) = trace w ++ evs /\ forallb P evs = true.

(** Two callbacks, or three, delivered one after the other. *)
Definition afterCallback (cfg : Config) (env : Env) (req : Request) (db : Firestore.Db)
  : Firestore.Db :=
  store (snd (run (handleCallback cfg env req) db)).

(** No character of [s] is a space. *)
Fixpoint noSpace (s : string) : bool :=
  match s with
  | EmptyString => true
  | String c rest => negb (Ascii.eqb c " ") && noSpace rest
  end.

Module Sample.

(** A second order of the scenario's user. *)
Definition order2 : Firestore.Order :=
  {| Firestore.status := "Pending";
     Firestore.subtotal := 1999;
     Firestore.pointsRedeemed := 0;
     Firestore.pointsEarned := None;
     Firestore.user := {| Firestore.user_id := "u1" |};
     Firestore.paymentDetails := None;
     Firestore.other := ∅ |}.

Definition db2 : Firestore.Db :=
  {| Firestore.orders := <[ "o2" := order2 ]> {[ "o1" := Scenario.order "Pending" ]};
     Firestore.users := {[ "u1" := Scenario.user ]} |}.

Definition callback2 : Request :=
  {| query := list_to_map [ ("OrderTrackingId", "t2");
                            ("OrderMerchantReference", "o2") ];
     body := ∅ |}.

(** A notification without the merchant reference. *)
Definition callbackNoRef : Request :=
  {| query := list_to_map [ ("OrderTrackingId", "t1") ]; body := ∅ |}.

(** A gateway that is down. *)
Definition gatewayDown : Env :=
  {| tokenReply := None;
     submitReply := fun _ _ => None;
     statusReply := fun _ _ => None;
     now := 0 |}.

(** A gateway that authenticates and rejects the order. *)
Definition gatewayRejecting : Env :=
  {| tokenReply := Some (JS.object [ ("token", JS.Str "tok") ]);
     submitReply := fun _ _ =>
       Some (JS.object [ ("error", JS.object [ ("message", JS.Str "duplicate id") ]) ]);
     statusReply := fun _ _ => None;
     now := 0 |}.

(** A submission whose [orderId] is a number. *)
Definition submissionNumericId : Request :=
  {| query := ∅;
     body := list_to_map [ ("order", Scenario.submittedOrder "Jo Doe");
                           ("orderId", JS.Num 12345) ] |}.

Definition statusQueryNoId : Request := {| query := ∅; body := ∅ |}.

Definition vercel (m path : string) (req : Request) : Serverless.VercelRequest :=
  {| Serverless.method := Some m; Serverless.pathname := path;
     Serverless.request := req |}.

End Sample.

(** ** Notions for the amended claims *)

(** The integers that JavaScript's numbers hold exactly. *)
Definition safeInteger (n : Z) : Prop :=
  -9007199254740992 < n < 9007199254740992.

(** The points computation for order [o] and user [u] stays within them,
    operands and intermediate results alike: there [Math.floor (x / 100)],
    [-] and [+] on doubles compute what [Z.div], [-] and [+] compute. *)
Definition exactPoints (o : Firestore.Order) (u : Firestore.User) : Prop :=
  safeInteger (Firestore.subtotal o)
  /\ safeInteger (Firestore.pointsRedeemed o)
  /\ safeInteger (default 0 (Firestore.points u))
  /\ safeInteger (default 0 (Firestore.points u) - Firestore.pointsRedeemed o)
  /\ safeInteger (default 0 (Firestore.points u) - Firestore.pointsRedeemed o
                  + Firestore.subtotal o / 100).


Definition isUndefined (v : JS.val) : bool :=
  match v with
  | JS.Undefined => true
  | _ => false
  end.

(** Whether an order carries every field a submission is expected to carry:
    [total], and [user] with [email], [phone] and [name]. *)
Definition hasExpectedFields (order : JS.val) : bool :=
  negb (isUndefined (JS.optProp order "total"))
  && negb (isUndefined (JS.optProp order "user"))
  && negb (isUndefined (JS.optProp (JS.optProp order "user") "email"))
  && negb (isUndefined (JS.optProp (JS.optProp order "user") "phone"))
  && negb (isUndefined (JS.optProp (JS.optProp order "user") "name")).

(** "A truthy order lacking the expected fields is answered with the generic
    500", read over every order that lacks one of them. *)
Definition IncompleteOrderIsAnswered500 : Prop :=
  forall cfg env req db,
    JS.truthy (JS.field (body req) "order") = true ->
    JS.truthy (JS.field (body req) "orderId") = true ->
    hasExpectedFields (JS.field (body req) "order") = false ->
    fst (run (handleOrder cfg env req) db) = JS.Ok paymentRequestFailed.

Module Replies.

(** A gateway that reports a completed payment and names no payment
    method. *)
Definition completedWithoutMethod : Env :=
  {| tokenReply := Some (JS.object [ ("token", JS.Str "tok") ]);
     submitReply := fun _ _ => None;
     statusReply := fun _ _ => Some (JS.object [ ("status_code", JS.Num 1) ]);
     now := 0 |}.

(** The status reply of [Scenario.gateway]. *)
Definition status (status_code : Z) : JS.val :=
  JS.object [ ("status_code", JS.Num status_code);
              ("payment_method", JS.Str "MpesaKE");
              ("description", JS.Str "ok") ].

(** A submission whose order holds the billing name and nothing else. *)
Definition submissionNameOnly : Request :=
  {| query := ∅;
     body := list_to_map
       [ ("order", JS.object [ ("user", JS.object [ ("name", JS.Str "Jo Doe") ]) ]);
         ("orderId", JS.Str "abcdef1234") ] |}.


End Replies.

(** * Properties *)

(** ** Authentication *)

Lemma getPesapalAuthToken_ok env tok w :
  authToken env = Some tok ->
  getPesapalAuthToken env w = (JS.Ok tok, logged w [GwRequestToken]).
Proof.
  unfold authToken, getPesapalAuthToken, tryCatch, bindM, emit, await, liftR, logged.
  destruct (tokenReply env) as [data|]; [|discriminate].
  cbn. destruct (JS.getProp data "token"); [|discriminate].
  intros [= ->]. reflexivity.
Qed.

Lemma getPesapalAuthToken_fail env w :
  authToken env = None ->
  getPesapalAuthToken env w =
    (JS.Throw (JS.Error (JS.Str "Could not authenticate with Pesapal.")),
     logged w [GwRequestToken; Log "Error getting Pesapal token:"]).
Proof.
  unfold authToken, getPesapalAuthToken, tryCatch, bindM, emit, await, liftR, logged,
    consoleError, throw.
  destruct (tokenReply env) as [data|]; cbn.
  - destruct (JS.getProp data "token"); [discriminate|].
    intros _. cbn. now rewrite <- app_assoc.
  - intros _. now rewrite <- app_assoc.
Qed.

(** ** The transaction of the callback handler *)

Lemma getProp_defined v k x :
  JS.getProp v k = JS.Ok x -> forall k', JS.getProp v k' = JS.Ok (JS.optProp v k').
Proof. destruct v; cbn; intros H k'; try discriminate; reflexivity. Qed.

Ltac trace_eq := cbn; rewrite <- ?app_assoc; reflexivity.

#[local] Arguments JS.hasUndefined : simpl never.

Lemma pointsOrZero_default p : pointsOrZero p = default 0 p.
Proof.
  destruct p as [n|]; [|reflexivity]. cbn.
  destruct (Z.eqb_spec n 0); congruence.
Qed.

Section Transaction.

Variables (env : Env) (w : World) (ref : string) (tid : option string) (data : JS.val).

Lemma transaction_order_absent :
  Firestore.orders (store w) !! ref = None ->
  runTransaction (completedTransaction env ref tid data) w =
    (JS.Throw (JS.Error (JS.Str "Order not found!")),
     {| store := store w; pending := [];
        trace := trace w ++ [TxBegin; TxGet "orders" ref; TxAbort] |}).
Proof.
  intros Habs.
  unfold runTransaction, completedTransaction, txGetOrder, tryCatch, bindM, emit,
    clearPending, throw; cbn.
  rewrite Habs. cbn. trace_eq.
Qed.

Lemma transaction_already_processing o :
  Firestore.orders (store w) !! ref = Some o ->
  Firestore.status o = "Processing" ->
  runTransaction (completedTransaction env ref tid data) w =
    (JS.Ok tt,
     {| store := store w; pending := [];
        trace := trace w ++ [TxBegin; TxGet "orders" ref; TxCommit] |}).
Proof.
  intros Ho Hst.
  unfold runTransaction, completedTransaction, txGetOrder, tryCatch, bindM, emit,
    clearPending, throw, commit, ret; cbn.
  rewrite Ho, Hst. cbn. trace_eq.
Qed.

Lemma transaction_user_absent o :
  Firestore.orders (store w) !! ref = Some o ->
  Firestore.status o <> "Processing" ->
  Firestore.user_id (Firestore.user o) = "" \/
  Firestore.users (store w) !! Firestore.user_id (Firestore.user o) = None ->
  exists e evs,
    runTransaction (completedTransaction env ref tid data) w =
      (JS.Throw e,
       {| store := store w; pending := [];
          trace := trace w ++ TxBegin :: TxGet "orders" ref :: evs |})
    /\ List.filter isWrite evs = [] /\ In TxAbort evs.
Proof.
  intros Ho Hst Hu. apply String.eqb_neq in Hst.
  unfold runTransaction, completedTransaction, txGetOrder, txGetUser, tryCatch, bindM,
    emit, clearPending, throw, liftR, Firestore.doc; cbn.
  rewrite Ho, Hst.
  destruct (String.eqb_spec (Firestore.user_id (Firestore.user o)) "") as [Hid|Hid]; cbn.
  - eexists _, [TxAbort]. split; [trace_eq|]. cbn. auto.
  - destruct Hu as [Hu|Hu]; [contradiction|]. rewrite Hu.
    eexists _, [TxGet "users" (Firestore.user_id (Firestore.user o)); TxAbort].
    split; [trace_eq|]. cbn. auto.
Qed.

Lemma transaction_data_refused o u x :
  JS.getProp data "status_code" = JS.Ok x ->
  Firestore.orders (store w) !! ref = Some o ->
  Firestore.status o <> "Processing" ->
  Firestore.user_id (Firestore.user o) <> "" ->
  Firestore.users (store w) !! Firestore.user_id (Firestore.user o) = Some u ->
  tid = None \/ JS.hasUndefined (JS.optProp data "payment_method") = true ->
  runTransaction (completedTransaction env ref tid data) w =
    (JS.Throw invalidData,
     {| store := store w; pending := [];
        trace := trace w ++
          [TxBegin; TxGet "orders" ref;
           TxGet "users" (Firestore.user_id (Firestore.user o)); TxAbort] |}).
Proof.
  intros Hd Ho Hst Hid Hu Hbad.
  apply String.eqb_neq in Hst, Hid.
  unfold runTransaction, completedTransaction, txGetOrder, txGetUser, tryCatch, bindM,
    emit, clearPending, throw, liftR, Firestore.doc, txUpdate, commit; cbn.
  rewrite Ho, Hst, Hid. cbn. rewrite Hu.
  rewrite (getProp_defined _ _ _ Hd "payment_method"). cbn.
  destruct Hbad as [-> | ->]; [|destruct tid]; cbn; rewrite <- !app_assoc; reflexivity.
Qed.

Lemma transaction_applied o u x t :
  tid = Some t ->
  JS.hasUndefined (JS.optProp data "payment_method") = false ->
  JS.getProp data "status_code" = JS.Ok x ->
  Firestore.orders (store w) !! ref = Some o ->
  Firestore.status o <> "Processing" ->
  Firestore.user_id (Firestore.user o) <> "" ->
  Firestore.users (store w) !! Firestore.user_id (Firestore.user o) = Some u ->
  runTransaction (completedTransaction env ref tid data) w =
    (JS.Ok tt,
     {| store :=
          {| Firestore.orders := <[ref := processedOrder env tid data o]> (Firestore.orders (store w));
             Firestore.users :=
               <[Firestore.user_id (Firestore.user o) := creditedUser o u]>
                 (Firestore.users (store w)) |};
        pending := [];
        trace := trace w ++
          [TxBegin; TxGet "orders" ref;
           TxGet "users" (Firestore.user_id (Firestore.user o));
           TxUpdate "orders" ref;
           TxUpdate "users" (Firestore.user_id (Firestore.user o)); TxCommit] |}).
Proof.
  intros Htid Hpm Hd Ho Hst Hid Hu.
  apply String.eqb_neq in Hst, Hid.
  unfold runTransaction, completedTransaction, txGetOrder, txGetUser, tryCatch, bindM,
    emit, clearPending, throw, liftR, Firestore.doc, txUpdate, commit; cbn.
  rewrite Ho, Hst, Hid. cbn. rewrite Hu.
  rewrite (getProp_defined _ _ _ Hd "payment_method"). cbn.
  rewrite Htid, Hpm. cbn.
  rewrite Ho. cbn. rewrite Hu. cbn.
  rewrite pointsOrZero_default. unfold processedOrder, creditedUser.
  rewrite <- !app_assoc. reflexivity.
Qed.

End Transaction.

(** ** The callback handler, case by case *)

Lemma callback_invalid cfg env req w :
  paramTruthy (query req !! "OrderTrackingId") = false \/
  paramTruthy (query req !! "OrderMerchantReference") = false ->
  handleCallback cfg env req w =
    (JS.Ok {| code := 400; content := Text "Invalid IPN request." |}, w).
Proof.
  unfold handleCallback. intros [-> | ->]; [reflexivity|].
  now rewrite orb_true_r.
Qed.

Section Callback.

Variables (cfg : Config) (env : Env) (req : Request) (db : Firestore.Db).
Variables (tid ref : string).
Hypothesis Htid : query req !! "OrderTrackingId" = Some tid.
Hypothesis Href : query req !! "OrderMerchantReference" = Some ref.
Hypothesis Htid_ne : tid <> "".
Hypothesis Href_ne : ref <> "".

Local Abbreviation url := (statusUrlOf cfg (Some tid)).

Lemma callback_query_failed :
  queriedStatusCode cfg env (Some tid) = None ->
  exists evs,
    run (handleCallback cfg env req) db =
      (JS.Ok {| code := 500; content := Text "Error processing IPN." |},
       {| store := db; pending := []; trace := evs |})
    /\ List.filter isStoreEvent evs = [].
Proof.
  unfold queriedStatusCode, queriedStatus. intros Hq.
  unfold run, handleCallback. rewrite Htid, Href. cbn [paramTruthy].
  apply String.eqb_neq in Htid_ne, Href_ne. rewrite Htid_ne, Href_ne. cbn [negb orb].
  unfold tryCatch at 1. unfold bindM at 1.
  destruct (authToken env) as [tok|] eqn:Htok.
  - rewrite (getPesapalAuthToken_ok _ _ _ Htok).
    fold (statusUrlOf cfg (Some tid)) in Hq |- *.
    unfold bindM at 1, emit at 1, bindM at 1.
    destruct (statusReply env url tok) as [data|]; cbn.
    + unfold bindM at 1, liftR at 1.
      destruct (JS.getProp data "status_code"); [discriminate|].
      eexists. split; [reflexivity|reflexivity].
    + eexists. split; reflexivity.
  - rewrite (getPesapalAuthToken_fail _ _ Htok). cbn.
    eexists. split; reflexivity.
Qed.

Variables (tok data sc : JS.val).
Hypothesis Htok : authToken env = Some tok.
Hypothesis Hdata : statusReply env url tok = Some data.
Hypothesis Hsc : JS.getProp data "status_code" = JS.Ok sc.

Lemma queriedStatusCode_eq : queriedStatusCode cfg env (Some tid) = Some sc.
Proof.
  unfold queriedStatusCode, queriedStatus. rewrite Htok.
  now rewrite Hdata, Hsc.
Qed.

Lemma callback_queried :
  run (handleCallback cfg env req) db =
    tryCatch
      ((if JS.strictEqNum sc 1
        then runTransaction (completedTransaction env ref (Some tid) data)
        else docUpdate (Firestore.UpdateOrder ref paymentFailed)) ;;
       send 200 "Callback received successfully.")
      (fun _ => consoleError "Error in IPN callback handler:" ;;
                send 500 "Error processing IPN.")
      {| store := db; pending := [];
         trace := [GwRequestToken; GwGetStatus url tok] |}.
Proof.
  unfold run, handleCallback. rewrite Htid, Href. cbn [paramTruthy].
  apply String.eqb_neq in Htid_ne, Href_ne. rewrite Htid_ne, Href_ne. cbn [negb orb].
  unfold tryCatch. unfold bindM at 1.
  rewrite (getPesapalAuthToken_ok _ _ _ Htok).
  fold (statusUrlOf cfg (Some tid)).
  unfold bindM at 1, emit at 1, bindM at 1. rewrite Hdata.
  unfold await, ret at 1. unfold bindM at 1, liftR at 1. rewrite Hsc.
  unfold Firestore.doc. rewrite Href_ne.
  destruct (JS.strictEqNum sc 1); reflexivity.
Qed.

Lemma callback_completed_order_absent :
  JS.strictEqNum sc 1 = true ->
  Firestore.orders db !! ref = None ->
  run (handleCallback cfg env req) db =
    (JS.Ok {| code := 500; content := Text "Error processing IPN." |},
     {| store := db; pending := [];
        trace := [GwRequestToken; GwGetStatus url tok;
                  TxBegin; TxGet "orders" ref; TxAbort;
                  Log "Error in IPN callback handler:"] |}).
Proof.
  intros H1 Habs. rewrite callback_queried, H1.
  unfold tryCatch, bindM at 1.
  rewrite transaction_order_absent by exact Habs. reflexivity.
Qed.

Lemma callback_completed_already_processing o :
  JS.strictEqNum sc 1 = true ->
  Firestore.orders db !! ref = Some o ->
  Firestore.status o = "Processing" ->
  run (handleCallback cfg env req) db =
    (JS.Ok {| code := 200; content := Text "Callback received successfully." |},
     {| store := db; pending := [];
        trace := [GwRequestToken; GwGetStatus url tok;
                  TxBegin; TxGet "orders" ref; TxCommit] |}).
Proof.
  intros H1 Ho Hst. rewrite callback_queried, H1.
  unfold tryCatch, bindM at 1.
  rewrite (transaction_already_processing _ _ _ _ _ o) by assumption. reflexivity.
Qed.

Lemma callback_completed_user_absent o :
  JS.strictEqNum sc 1 = true ->
  Firestore.orders db !! ref = Some o ->
  Firestore.status o <> "Processing" ->
  Firestore.user_id (Firestore.user o) = "" \/
  Firestore.users db !! Firestore.user_id (Firestore.user o) = None ->
  exists evs,
    run (handleCallback cfg env req) db =
      (JS.Ok {| code := 500; content := Text "Error processing IPN." |},
       {| store := db; pending := [];
          trace := GwRequestToken :: GwGetStatus url tok ::
                   TxBegin :: TxGet "orders" ref :: evs |})
    /\ List.filter isWrite evs = [] /\ In TxAbort evs.
Proof.
  intros H1 Ho Hst Hu. rewrite callback_queried, H1.
  unfold tryCatch, bindM at 1.
  destruct (transaction_user_absent env
              {| store := db; pending := []; trace := [GwRequestToken; GwGetStatus url tok] |}
              ref (Some tid) data o Ho Hst Hu) as (e & evs & -> & Hw & Hin).
  cbn. eexists. split; [reflexivity|].
  rewrite List.filter_app, Hw. split; [reflexivity|].
  apply in_or_app. now left.
Qed.

Lemma callback_completed_refused o u :
  JS.hasUndefined (JS.optProp data "payment_method") = true ->
  JS.strictEqNum sc 1 = true ->
  Firestore.orders db !! ref = Some o ->
  Firestore.status o <> "Processing" ->
  Firestore.user_id (Firestore.user o) <> "" ->
  Firestore.users db !! Firestore.user_id (Firestore.user o) = Some u ->
  run (handleCallback cfg env req) db =
    (JS.Ok {| code := 500; content := Text "Error processing IPN." |},
     {| store := db; pending := [];
        trace := [GwRequestToken; GwGetStatus url tok;
                  TxBegin; TxGet "orders" ref;
                  TxGet "users" (Firestore.user_id (Firestore.user o));
                  TxAbort; Log "Error in IPN callback handler:"] |}).
Proof.
  intros Hpm H1 Ho Hst Hid Hu. rewrite callback_queried, H1.
  unfold tryCatch, bindM at 1.
  rewrite (transaction_data_refused env _ ref (Some tid) data o u sc)
    by (assumption || now right).
  reflexivity.
Qed.

Lemma callback_completed_applied o u :
  JS.hasUndefined (JS.optProp data "payment_method") = false ->
  JS.strictEqNum sc 1 = true ->
  Firestore.orders db !! ref = Some o ->
  Firestore.status o <> "Processing" ->
  Firestore.user_id (Firestore.user o) <> "" ->
  Firestore.users db !! Firestore.user_id (Firestore.user o) = Some u ->
  run (handleCallback cfg env req) db =
    (JS.Ok {| code := 200; content := Text "Callback received successfully." |},
     {| store :=
          {| Firestore.orders :=
               <[ref := processedOrder env (Some tid) data o]> (Firestore.orders db);
             Firestore.users :=
               <[Firestore.user_id (Firestore.user o) := creditedUser o u]>
                 (Firestore.users db) |};
        pending := [];
        trace := [GwRequestToken; GwGetStatus url tok;
                  TxBegin; TxGet "orders" ref;
                  TxGet "users" (Firestore.user_id (Firestore.user o));
                  TxUpdate "orders" ref;
                  TxUpdate "users" (Firestore.user_id (Firestore.user o));
                  TxCommit] |}).
Proof.
  intros Hpm H1 Ho Hst Hid Hu. rewrite callback_queried, H1.
  unfold tryCatch, bindM at 1.
  rewrite (transaction_applied env _ ref (Some tid) data o u sc tid)
    by (assumption || reflexivity).
  reflexivity.
Qed.

Lemma callback_failed_order_present o :
  JS.strictEqNum sc 1 = false ->
  Firestore.orders db !! ref = Some o ->
  run (handleCallback cfg env req) db =
    (JS.Ok {| code := 200; content := Text "Callback received successfully." |},
     {| store :=
          {| Firestore.orders := <[ref := failedOrder o]> (Firestore.orders db);
             Firestore.users := Firestore.users db |};
        pending := [];
        trace := [GwRequestToken; GwGetStatus url tok; DocUpdate "orders" ref] |}).
Proof.
  intros H1 Ho. rewrite callback_queried, H1.
  unfold tryCatch, bindM, docUpdate, emit; cbn. rewrite Ho. reflexivity.
Qed.

Lemma callback_failed_order_absent :
  JS.strictEqNum sc 1 = false ->
  Firestore.orders db !! ref = None ->
  run (handleCallback cfg env req) db =
    (JS.Ok {| code := 500; content := Text "Error processing IPN." |},
     {| store := db; pending := [];
        trace := [GwRequestToken; GwGetStatus url tok; DocUpdate "orders" ref;
                  Log "Error in IPN callback handler:"] |}).
Proof.
  intros H1 Ho. rewrite callback_queried, H1.
  unfold tryCatch, bindM, docUpdate, emit; cbn. rewrite Ho. reflexivity.
Qed.

End Callback.

(** ** Computations that leave the store alone *)

Create HintDb readonly.

Lemma readOnly_ret {A} (a : A) : readOnly (ret a).
Proof. intros w. now split. Qed.

Lemma readOnly_throw {A} e : readOnly (@throw A e).
Proof. intros w. now split. Qed.

Lemma readOnly_liftR {A} (r : JS.result A) : readOnly (liftR r).
Proof. intros w. now split. Qed.

Lemma readOnly_emit e : readOnly (emit e).
Proof. intros w. now split. Qed.

Lemma readOnly_await reply : readOnly (await reply).
Proof. destruct reply; intros w; now split. Qed.

Lemma readOnly_bind {A B} (m : M A) (k : A -> M B) :
  readOnly m -> (forall a, readOnly (k a)) -> readOnly (bindM m k).
Proof.
  intros Hm Hk w. unfold bindM. specialize (Hm w).
  destruct (m w) as [[a|e] w1]; cbn in *; [|exact Hm].
  destruct (Hk a w1) as [H1 H2]. rewrite H1, H2. exact Hm.
Qed.

Lemma readOnly_tryCatch {A} (m : M A) (h : JS.exn -> M A) :
  readOnly m -> (forall e, readOnly (h e)) -> readOnly (tryCatch m h).
Proof.
  intros Hm Hh w. unfold tryCatch. specialize (Hm w).
  destruct (m w) as [[a|e] w1]; cbn in *; [exact Hm|].
  destruct (Hh e w1) as [H1 H2]. rewrite H1, H2. exact Hm.
Qed.

Lemma readOnly_if {A} (b : bool) (m1 m2 : M A) :
  readOnly m1 -> readOnly m2 -> readOnly (if b then m1 else m2).
Proof. now destruct b. Qed.

#[local] Hint Resolve readOnly_ret readOnly_throw readOnly_liftR readOnly_emit
  readOnly_await readOnly_bind readOnly_tryCatch readOnly_if : readonly.

Lemma readOnly_getPesapalAuthToken env : readOnly (getPesapalAuthToken env).
Proof. unfold getPesapalAuthToken, consoleError. auto 10 with readonly. Qed.

#[local] Hint Resolve readOnly_getPesapalAuthToken : readonly.

Lemma readOnly_handleOrder cfg env req : readOnly (handleOrder cfg env req).
Proof. unfold handleOrder, json, consoleError. auto 20 with readonly. Qed.

Lemma readOnly_transactionStatus cfg env mapping req :
  readOnly (transactionStatus cfg env mapping req).
Proof. unfold transactionStatus, json, consoleError. auto 20 with readonly. Qed.

(** ** Names *)

Lemma split_nonempty s : JS.split " " s <> [].
Proof.
  destruct s as [|c rest]; cbn; [discriminate|].
  destruct (Ascii.eqb c " "); [discriminate|].
  destruct (JS.split " " rest); discriminate.
Qed.

Lemma split_head s :
  JS.index0 (JS.split " " s) = JS.Str (beforeFirstSpace s).
Proof.
  induction s as [|c rest IH]; cbn; [reflexivity|].
  destruct (Ascii.eqb c " "); [reflexivity|].
  destruct (JS.split " " rest) as [|w ws] eqn:E; cbn in *.
  - now destruct (split_nonempty rest).
  - now injection IH as ->.
Qed.

Lemma join_split s : JS.join " " (JS.split " " s) = s.
Proof.
  induction s as [|c rest IH]; cbn; [reflexivity|].
  destruct (Ascii.eqb_spec c " ") as [->|Hc].
  - destruct (JS.split " " rest) as [|w ws] eqn:E.
    + now destruct (split_nonempty rest).
    + change (JS.join " " ("" :: w :: ws))
        with (String.append "" (String.append " " (JS.join " " (w :: ws)))).
      now rewrite IH.
  - destruct (JS.split " " rest) as [|w ws] eqn:E.
    + now destruct (split_nonempty rest).
    + destruct ws; cbn in *; now rewrite <- IH.
Qed.

Lemma split_tail s :
  JS.join " " (JS.slice1 (JS.split " " s)) = default "" (afterFirstSpace s).
Proof.
  induction s as [|c rest IH]; cbn; [reflexivity|].
  destruct (Ascii.eqb c " ").
  - cbn. apply join_split.
  - destruct (JS.split " " rest) as [|w ws] eqn:E; cbn in *.
    + now destruct (split_nonempty rest).
    + exact IH.
Qed.

Lemma afterFirstSpace_none_eq s :
  afterFirstSpace s = None -> beforeFirstSpace s = s.
Proof.
  induction s as [|c rest IH]; cbn; [reflexivity|].
  destruct (Ascii.eqb c " "); [discriminate|]. intros H. now rewrite IH.
Qed.

Lemma afterFirstSpace_some_eq s rest :
  afterFirstSpace s = Some rest ->
  s = String.append (beforeFirstSpace s) (String " " rest).
Proof.
  induction s as [|c s' IH]; cbn; [discriminate|].
  destruct (Ascii.eqb_spec c " ") as [->|Hc].
  - now intros [= ->].
  - intros H. rewrite (IH H) at 1. reflexivity.
Qed.

Lemma pesapalOrderData_ok cfg order u oid name :
  JS.getProp order "user" = JS.Ok u ->
  JS.getProp u "name" = JS.Ok (JS.Str name) ->
  pesapalOrderData cfg order (JS.Str oid) = JS.Ok (orderRequest cfg order oid name).
Proof.
  intros Hu Hn. unfold pesapalOrderData, nameParts, orderRequest.
  rewrite (getProp_defined _ _ _ Hu "total"). cbn [JS.bind JS.callSubstring0].
  rewrite Hu. cbn [JS.bind].
  rewrite (getProp_defined _ _ _ Hn "email"), (getProp_defined _ _ _ Hn "phone"), Hn.
  cbn [JS.bind JS.callSplit].
  rewrite split_head, split_tail.
  replace (JS.optProp order "user") with u
    by (destruct order; cbn in Hu |- *; congruence).
  unfold lastNameOf, JS.truthy.
  destruct (afterFirstSpace name) as [rest|].
  - change (default "" (Some rest)) with rest.
    destruct (String.eqb rest ""); reflexivity.
  - reflexivity.
Qed.

Lemma pesapalOrderData_throws cfg order orderId :
  hasBillingName order = false ->
  exists e, pesapalOrderData cfg order orderId = JS.Throw e.
Proof.
  intros Hb. unfold pesapalOrderData, nameParts, hasBillingName in *.
  destruct (JS.getProp order "total") as [amount|e] eqn:Ha; [|eauto]. cbn [JS.bind].
  destruct (JS.callSubstring0 orderId 8) as [prefix|e]; [|eauto]. cbn [JS.bind].
  rewrite (getProp_defined _ _ _ Ha "user") in *. cbn [JS.bind].
  destruct (JS.getProp (JS.optProp order "user") "email") as [em|e] eqn:He; [|eauto].
  rewrite (getProp_defined _ _ _ He "phone"), (getProp_defined _ _ _ He "name") in *.
  cbn [JS.bind].
  destruct (JS.optProp (JS.optProp order "user") "name"); cbn; eauto; discriminate.
Qed.

(** ** The order-submission handler *)

Lemma handleOrder_invalid cfg env req w :
  JS.truthy (JS.field (body req) "order") = false \/
  JS.truthy (JS.field (body req) "orderId") = false ->
  handleOrder cfg env req w = (JS.Ok missingOrderData, w).
Proof.
  unfold handleOrder. intros [-> | ->]; [reflexivity|].
  now rewrite orb_true_r.
Qed.

Lemma handleOrder_malformed cfg env req db :
  JS.truthy (JS.field (body req) "order") = true ->
  JS.truthy (JS.field (body req) "orderId") = true ->
  hasBillingName (JS.field (body req) "order") = false ->
  exists evs,
    run (handleOrder cfg env req) db =
      (JS.Ok paymentRequestFailed,
       {| store := db; pending := []; trace := GwRequestToken :: evs |})
    /\ List.filter isGatewayCall evs = [].
Proof.
  intros Ho Hi Hb. unfold run, handleOrder. rewrite Ho, Hi. cbn [negb orb].
  unfold tryCatch, bindM at 1.
  destruct (authToken env) as [tok|] eqn:Htok.
  - rewrite (getPesapalAuthToken_ok _ _ _ Htok).
    destruct (pesapalOrderData_throws cfg _ (JS.field (body req) "orderId") Hb) as [e He].
    unfold bindM at 1, liftR at 1. rewrite He.
    eexists. split; reflexivity.
  - rewrite (getPesapalAuthToken_fail _ _ Htok).
    eexists. split; reflexivity.
Qed.

Lemma handleOrder_submits cfg env req db order u oid name tok :
  JS.field (body req) "order" = order ->
  JS.field (body req) "orderId" = JS.Str oid ->
  oid <> "" ->
  JS.getProp order "user" = JS.Ok u ->
  JS.getProp u "name" = JS.Ok (JS.Str name) ->
  authToken env = Some tok ->
  exists r evs,
    run (handleOrder cfg env req) db =
      (JS.Ok r,
       {| store := db; pending := [];
          trace := GwRequestToken ::
                   GwSubmitOrder (orderRequest cfg order oid name) tok :: evs |})
    /\ List.filter isGatewayCall evs = [].
Proof.
  intros Ho Hi Hne Hu Hn Htok. unfold run, handleOrder. rewrite Ho, Hi.
  assert (JS.truthy order = true) as ->.
  { destruct order; try reflexivity; cbn in Hu; try discriminate;
      injection Hu as <-; discriminate. }
  apply String.eqb_neq in Hne. cbn [JS.truthy]. rewrite Hne. cbn [negb orb].
  unfold tryCatch, bindM at 1.
  rewrite (getPesapalAuthToken_ok _ _ _ Htok).
  unfold bindM at 1, liftR at 1. rewrite (pesapalOrderData_ok cfg order u oid name Hu Hn).
  unfold bindM at 1, emit at 1, bindM at 1.
  destruct (submitReply env (orderRequest cfg order oid name) tok) as [data|].
  - unfold await, ret at 1. unfold bindM at 1.
    destruct (JS.truthy data) eqn:Hd.
    + unfold liftR at 1.
      assert (exists x, JS.getProp data "redirect_url" = JS.Ok x) as [x Hx]
        by (destruct data; cbn in Hd |- *; try discriminate; eauto).
      rewrite Hx. destruct (JS.truthy x).
      * eexists _, []. split; reflexivity.
      * unfold bindM at 1, liftR at 1.
        rewrite (getProp_defined _ _ _ Hx "error").
        eexists _, _. split; reflexivity.
    + unfold ret at 1. rewrite Hd. unfold bindM at 1, liftR at 1.
      destruct (JS.getProp data "error"); eexists _, _; split; reflexivity.
  - eexists _, _. split; reflexivity.
Qed.

(** ** The status-query handler *)

Lemma statusExpress_enum sc : statusExpress sc = getStatusEnum sc.
Proof.
  destruct sc as [| |b|n|s|items|fields]; try reflexivity.
  destruct n as [|[[p|p|]|[p|p|]|]|p]; reflexivity.
Qed.

Lemma statusServerless_enum sc : statusServerless sc = getStatusEnum sc.
Proof.
  destruct sc as [| |b|n|s|items|fields]; try reflexivity.
  destruct n as [|[[p|p|]|[p|p|]|]|p]; reflexivity.
Qed.

Lemma transactionStatus_answer cfg env mapping req db tid tok data sc :
  query req !! "pesapalTrackingId" = Some tid ->
  tid <> "" ->
  authToken env = Some tok ->
  statusReply env (statusUrlOf cfg (Some tid)) tok = Some data ->
  JS.getProp data "status_code" = JS.Ok sc ->
  fst (run (transactionStatus cfg env mapping req) db) =
    JS.Ok {| code := 200;
             content := Json (JS.object
               [ ("status", JS.Str (mapping sc));
                 ("payment_method", JS.optProp data "payment_method");
                 ("description", JS.optProp data "description") ]) |}.
Proof.
  intros Htid Hne Htok Hdata Hsc. unfold run, transactionStatus.
  rewrite Htid. cbn [paramTruthy]. apply String.eqb_neq in Hne. rewrite Hne.
  cbn [negb]. unfold tryCatch, bindM at 1.
  rewrite (getPesapalAuthToken_ok _ _ _ Htok).
  fold (statusUrlOf cfg (Some tid)).
  unfold bindM at 1, emit at 1, bindM at 1. rewrite Hdata.
  unfold await, ret at 1. unfold bindM at 1, liftR at 1. rewrite Hsc.
  unfold bindM at 1, liftR at 1. rewrite (getProp_defined _ _ _ Hsc "payment_method").
  unfold bindM at 1, liftR at 1. rewrite (getProp_defined _ _ _ Hsc "description").
  reflexivity.
Qed.

(** * The claims *)

(** C6.  The status-query handler, in the Express route and in the
    serverless function alike, maps the provider's status code to the closed
    enum (1 to COMPLETED, 0 and 2 to FAILED, 3 to PENDING, any other value to
    INVALID) and answers [{status, payment_method, description}] with the
    payment method and description it received. *)
Theorem transaction_status_maps_code cfg env req db tid tok data sc :
  query req !! "pesapalTrackingId" = Some tid ->
  tid <> "" ->
  authToken env = Some tok ->
  statusReply env (statusUrlOf cfg (Some tid)) tok = Some data ->
  JS.getProp data "status_code" = JS.Ok sc ->
  fst (run (handleTransactionStatusExpress cfg env req) db) = JS.Ok (statusAnswer data sc)
  /\ fst (run (handleTransactionStatus cfg env req) db) = JS.Ok (statusAnswer data sc)
  /\ (forall n : Z,
        sc = JS.Num n ->
        getStatusEnum sc =
          if Z.eqb n 1 then "COMPLETED"
          else if Z.eqb n 0 || Z.eqb n 2 then "FAILED"
          else if Z.eqb n 3 then "PENDING"
          else "INVALID")
  /\ ((forall n : Z, sc <> JS.Num n) -> getStatusEnum sc = "INVALID").
Proof.
  intros Htid Hne Htok Hdata Hsc.
  unfold handleTransactionStatusExpress, handleTransactionStatus, statusAnswer.
  rewrite (transactionStatus_answer cfg env statusExpress req db tid tok data sc)
    by assumption.
  rewrite (transactionStatus_answer cfg env statusServerless req db tid tok data sc)
    by assumption.
  rewrite statusExpress_enum, statusServerless_enum.
  repeat split.
  - intros n ->. destruct n as [|[[p|p|]|[p|p|]|]|p]; reflexivity.
  - intros Hn. destruct sc; try reflexivity. now destruct (Hn n).
Qed.

Lemma transaction_status_maps_code_witness :
  fst (run (handleTransactionStatusExpress Scenario.config (Scenario.gateway 2 0)
              Scenario.statusQuery) (Scenario.db "Pending")) =
    JS.Ok {| code := 200;
             content := Json (JS.object [ ("status", JS.Str "FAILED");
                                          ("payment_method", JS.Str "MpesaKE");
                                          ("description", JS.Str "ok") ]) |}.
Proof.
  apply (transaction_status_maps_code Scenario.config (Scenario.gateway 2 0)
           Scenario.statusQuery (Scenario.db "Pending") "t1" (JS.Str "tok")
           (JS.object [ ("status_code", JS.Num 2);
                        ("payment_method", JS.Str "MpesaKE");
                        ("description", JS.Str "ok") ])
           (JS.Num 2)); 
    first [ reflexivity | discriminate ].
Defined.

(** C7.  An order submission whose [order] or [orderId] is missing or empty
    (undefined, null, the empty string, or any other falsy value) is answered
    400 with [{success: false, message}]; the gateway is not called, nothing
    is logged and the store is not touched. *)
Theorem order_submission_rejects_missing_data cfg env req db :
  JS.truthy (JS.field (body req) "order") = false \/
  JS.truthy (JS.field (body req) "orderId") = false ->
  run (handleOrder cfg env req) db =
    (JS.Ok missingOrderData, {| store := db; pending := []; trace := [] |}).
Proof. intros H. unfold run. now apply handleOrder_invalid. Qed.

Lemma order_submission_rejects_missing_data_witness :
  run (handleOrder Scenario.config (Scenario.gateway 1 0) Scenario.submissionNoId)
      (Scenario.db "Pending") =
    (JS.Ok missingOrderData,
     {| store := Scenario.db "Pending"; pending := []; trace := [] |}).
Proof.
  apply (order_submission_rejects_missing_data Scenario.config (Scenario.gateway 1 0)
           Scenario.submissionNoId (Scenario.db "Pending")).
  right. reflexivity.
Defined.

(** C8, as stated, fails on a name that ends in its first space: for "Jo "
    the remainder after the first space is empty, and the handler sends the
    first name "Jo" as last name. *)
Lemma last_name_is_not_always_remainder : ~ LastNameIsRemainder.
Proof.
  intros H.
  destruct (H Scenario.config (Scenario.submittedOrder "Jo ")
              (JS.object [ ("email", JS.Str "a@b.com"); ("phone", JS.Str "1");
                           ("name", JS.Str "Jo ") ])
              "abcdef1234" "Jo " eq_refl eq_refl) as (p & b & Hp & Hb & Hl).
  vm_compute in Hp. injection Hp as <-.
  vm_compute in Hb. injection Hb as <-.
  vm_compute in Hl. discriminate Hl.
Qed.

(** C8, amended.  For every well-formed order submission that authenticates,
    the handler sends the gateway an order request whose first name is the
    part of the full name before its first space, whose last name is the
    remainder after that space when there is one and it is not empty, and
    the first name otherwise, and whose description embeds the first 8
    characters of the order id. *)
Theorem order_request_names cfg env req db order u oid name tok :
  JS.field (body req) "order" = order ->
  JS.field (body req) "orderId" = JS.Str oid ->
  oid <> "" ->
  JS.getProp order "user" = JS.Ok u ->
  JS.getProp u "name" = JS.Ok (JS.Str name) ->
  authToken env = Some tok ->
  exists p b,
    trace (snd (run (handleOrder cfg env req) db)) !! 1%nat = Some (GwSubmitOrder p tok)
    /\ JS.getProp p "description" =
         JS.Ok (JS.Str (String.append "Payment for Order #" (String.substring 0 8 oid)))
    /\ JS.getProp p "billing_address" = JS.Ok b
    /\ JS.getProp b "first_name" = JS.Ok (JS.Str (beforeFirstSpace name))
    /\ JS.getProp b "last_name" =
         JS.Ok (JS.Str
           match afterFirstSpace name with
           | Some rest => if String.eqb rest "" then beforeFirstSpace name else rest
           | None => beforeFirstSpace name
           end).
Proof.
  intros Ho Hi Hne Hu Hn Htok.
  destruct (handleOrder_submits cfg env req db order u oid name tok Ho Hi Hne Hu Hn Htok)
    as (r & evs & -> & _).
  eexists _, _. split; [reflexivity|].
  repeat split; reflexivity.
Qed.

Lemma order_request_names_witness :
  exists p b,
    trace (snd (run (handleOrder Scenario.config (Scenario.gateway 1 0)
                       (Scenario.submission "Jo Doe")) (Scenario.db "Pending")))
      !! 1%nat = Some (GwSubmitOrder p (JS.Str "tok"))
    /\ JS.getProp p "description" = JS.Ok (JS.Str "Payment for Order #abcdef12")
    /\ JS.getProp p "billing_address" = JS.Ok b
    /\ JS.getProp b "first_name" = JS.Ok (JS.Str "Jo")
    /\ JS.getProp b "last_name" = JS.Ok (JS.Str "Doe").
Proof.
  apply (order_request_names Scenario.config (Scenario.gateway 1 0)
           (Scenario.submission "Jo Doe") (Scenario.db "Pending")
           (Scenario.submittedOrder "Jo Doe")
           (JS.object [ ("email", JS.Str "a@b.com"); ("phone", JS.Str "1");
                        ("name", JS.Str "Jo Doe") ])
           "abcdef1234" "Jo Doe" (JS.Str "tok"));
    first [ reflexivity | discriminate ].
Defined.

(** C10, as stated, fails on an order that lacks only fields the handler
    never dereferences: [{user: {name: "Jo Doe"}}], without [total], [email]
    or [phone], is submitted to the gateway and answered 200. *)
Lemma incomplete_order_may_be_submitted : ~ IncompleteOrderIsAnswered500.
Proof.
  intros H.
  specialize (H Scenario.config (Scenario.gateway 1 0) Replies.submissionNameOnly
                (Scenario.db "Pending") eq_refl eq_refl eq_refl).
  vm_compute in H. discriminate H.
Qed.

(** C10, amended.  Validation looks at the truthiness of [order] and
    [orderId] only: a submission in which both are truthy but
    [order.user.name] is not a string (an empty object with no [user], for
    one) passes validation, calls the gateway's authentication, makes no
    other gateway call, and is answered 500 with the generic failure message;
    the store is not touched. *)
Theorem malformed_order_passes_validation cfg env req db :
  JS.truthy (JS.field (body req) "order") = true ->
  JS.truthy (JS.field (body req) "orderId") = true ->
  hasBillingName (JS.field (body req) "order") = false ->
  fst (run (handleOrder cfg env req) db) = JS.Ok paymentRequestFailed
  /\ store (snd (run (handleOrder cfg env req) db)) = db
  /\ List.filter isGatewayCall (trace (snd (run (handleOrder cfg env req) db)))
     = [GwRequestToken].
Proof.
  intros Ho Hi Hb.
  destruct (handleOrder_malformed cfg env req db Ho Hi Hb) as (evs & -> & Hevs).
  cbn. now rewrite Hevs.
Qed.

Lemma malformed_order_passes_validation_witness :
  fst (run (handleOrder Scenario.config (Scenario.gateway 1 0)
              Scenario.submissionEmptyOrder) (Scenario.db "Pending"))
    = JS.Ok paymentRequestFailed
  /\ store (snd (run (handleOrder Scenario.config (Scenario.gateway 1 0)
                        Scenario.submissionEmptyOrder) (Scenario.db "Pending")))
     = Scenario.db "Pending"
  /\ List.filter isGatewayCall
       (trace (snd (run (handleOrder Scenario.config (Scenario.gateway 1 0)
                           Scenario.submissionEmptyOrder) (Scenario.db "Pending"))))
     = [GwRequestToken].
Proof.
  apply (malformed_order_passes_validation Scenario.config (Scenario.gateway 1 0)
           Scenario.submissionEmptyOrder (Scenario.db "Pending"));
    reflexivity.
Defined.

(** ** The callback handler: what decides, and what is written *)

Lemma queriedStatusCode_inv cfg env t sc :
  queriedStatusCode cfg env t = Some sc ->
  exists tok data,
    authToken env = Some tok
    /\ statusReply env (statusUrlOf cfg t) tok = Some data
    /\ JS.getProp data "status_code" = JS.Ok sc.
Proof.
  unfold queriedStatusCode, queriedStatus.
  destruct (authToken env) as [tok|] eqn:Ht; [|discriminate].
  destruct (statusReply env (statusUrlOf cfg t) tok) as [data|] eqn:Hd; [|discriminate].
  destruct (JS.getProp data "status_code") as [x|] eqn:Hx; [|discriminate].
  intros [= ->]. exists tok, data. auto.
Qed.

Lemma queriedStatus_inv cfg env t data :
  queriedStatus cfg env t = Some data ->
  exists tok,
    authToken env = Some tok /\ statusReply env (statusUrlOf cfg t) tok = Some data.
Proof.
  unfold queriedStatus. destruct (authToken env) as [tok|]; [|discriminate]. eauto.
Qed.

Lemma paramTruthy_inv p :
  paramTruthy p = true -> exists s, p = Some s /\ s <> "".
Proof.
  destruct p as [s|]; [|discriminate]. cbn.
  destruct (String.eqb_spec s ""); [discriminate|]. eauto.
Qed.

Lemma filter_nil_not_in {A} (f : A -> bool) (l : list A) (x : A) :
  List.filter f l = [] -> f x = true -> ~ In x l.
Proof.
  intros Hf Hx Hin.
  assert (In x (List.filter f l)) as H by (apply List.filter_In; auto).
  now rewrite Hf in H.
Qed.

(** The store a completed callback leaves: the one it found, unless the
    order was waiting and its user exists. *)
Lemma callback_completed_cases cfg env req db tid ref tok data sc :
  query req !! "OrderTrackingId" = Some tid ->
  query req !! "OrderMerchantReference" = Some ref ->
  tid <> "" -> ref <> "" ->
  authToken env = Some tok ->
  statusReply env (statusUrlOf cfg (Some tid)) tok = Some data ->
  JS.getProp data "status_code" = JS.Ok sc ->
  JS.strictEqNum sc 1 = true ->
  In TxBegin (trace (snd (run (handleCallback cfg env req) db)))
  /\ (store (snd (run (handleCallback cfg env req) db)) = db
      \/ exists o u,
           Firestore.orders db !! ref = Some o
           /\ Firestore.status o <> "Processing"
           /\ Firestore.users db !! Firestore.user_id (Firestore.user o) = Some u
           /\ store (snd (run (handleCallback cfg env req) db)) =
                {| Firestore.orders :=
                     <[ref := processedOrder env (Some tid) data o]> (Firestore.orders db);
                   Firestore.users :=
                     <[Firestore.user_id (Firestore.user o) := creditedUser o u]>
                       (Firestore.users db) |}).
Proof.
  intros Htid Href Htid_ne Href_ne Htok Hdata Hsc H1.
  destruct (Firestore.orders db !! ref) as [o|] eqn:Ho.
  - destruct (String.eqb_spec (Firestore.status o) "Processing") as [Hst|Hst].
    + rewrite (callback_completed_already_processing cfg env req db tid ref
                 Htid Href Htid_ne Href_ne tok data sc Htok Hdata Hsc o H1 Ho Hst).
      cbn. intuition.
    + destruct (String.eqb_spec (Firestore.user_id (Firestore.user o)) "") as [Hid|Hid].
      * destruct (callback_completed_user_absent cfg env req db tid ref
                    Htid Href Htid_ne Href_ne tok data sc Htok Hdata Hsc o H1 Ho Hst
                    (or_introl Hid)) as (evs & -> & _).
        cbn. intuition.
      * destruct (Firestore.users db !! Firestore.user_id (Firestore.user o))
          as [u|] eqn:Hu.
        -- destruct (JS.hasUndefined (JS.optProp data "payment_method")) eqn:Hpm.
           ++ rewrite (callback_completed_refused cfg env req db tid ref
                         Htid Href Htid_ne Href_ne tok data sc Htok Hdata Hsc o u
                         Hpm H1 Ho Hst Hid Hu).
              cbn. intuition.
           ++ rewrite (callback_completed_applied cfg env req db tid ref
                         Htid Href Htid_ne Href_ne tok data sc Htok Hdata Hsc o u
                         Hpm H1 Ho Hst Hid Hu).
              cbn. split; [intuition|]. right. exists o, u. intuition.
        -- destruct (callback_completed_user_absent cfg env req db tid ref
                       Htid Href Htid_ne Href_ne tok data sc Htok Hdata Hsc o H1 Ho Hst
                       (or_intror Hu)) as (evs & -> & _).
           cbn. intuition.
  - rewrite (callback_completed_order_absent cfg env req db tid ref
               Htid Href Htid_ne Href_ne tok data sc Htok Hdata Hsc H1 Ho).
    cbn. intuition.
Qed.

(** C1.  Two callback invocations that agree on [OrderTrackingId] and
    [OrderMerchantReference] and meet the same gateway behave alike, whatever
    else the caller sent: same response, same store, same effects.  And the
    completed-payment transaction is entered exactly when the status code
    freshly queried for the tracking id is the number 1. *)
Theorem callback_trusts_only_queried_status cfg env r1 r2 db :
  query r1 !! "OrderTrackingId" = query r2 !! "OrderTrackingId" ->
  query r1 !! "OrderMerchantReference" = query r2 !! "OrderMerchantReference" ->
  run (handleCallback cfg env r1) db = run (handleCallback cfg env r2) db
  /\ (In TxBegin (trace (snd (run (handleCallback cfg env r1) db))) <->
      paramTruthy (query r1 !! "OrderTrackingId") = true
      /\ paramTruthy (query r1 !! "OrderMerchantReference") = true
      /\ exists sc,
           queriedStatusCode cfg env (query r1 !! "OrderTrackingId") = Some sc
           /\ JS.strictEqNum sc 1 = true).
Proof.
  intros Ht Hr. split.
  { unfold run, handleCallback. now rewrite Ht, Hr. }
  clear r2 Ht Hr.
  destruct (paramTruthy (query r1 !! "OrderTrackingId")) eqn:Pt;
    [destruct (paramTruthy (query r1 !! "OrderMerchantReference")) eqn:Pr|].
  - apply paramTruthy_inv in Pt as (tid & Htid & Htid_ne).
    apply paramTruthy_inv in Pr as (ref & Href & Href_ne).
    rewrite Htid.
    destruct (queriedStatusCode cfg env (Some tid)) as [sc|] eqn:Hq.
    + destruct (queriedStatusCode_inv _ _ _ _ Hq) as (tok & data & Htok & Hdata & Hsc).
      destruct (JS.strictEqNum sc 1) eqn:H1.
      * split; [eauto|]. intros _.
        now apply (callback_completed_cases cfg env r1 db tid ref tok data sc).
      * split; [|intros (_ & _ & sc' & [= <-] & H); congruence].
        destruct (Firestore.orders db !! ref) as [o|] eqn:Ho.
        -- rewrite (callback_failed_order_present cfg env r1 db tid ref
                      Htid Href Htid_ne Href_ne tok data sc Htok Hdata Hsc o H1 Ho).
           cbn. intuition discriminate.
        -- rewrite (callback_failed_order_absent cfg env r1 db tid ref
                      Htid Href Htid_ne Href_ne tok data sc Htok Hdata Hsc H1 Ho).
           cbn. intuition discriminate.
    + split; [|intros (_ & _ & sc & [=] & _)].
      destruct (callback_query_failed cfg env r1 db tid ref Htid Href Htid_ne Href_ne Hq)
        as (evs & -> & Hevs).
      intros Hin. cbn in Hin. now apply (filter_nil_not_in _ _ _ Hevs) in Hin.
  - unfold run. rewrite callback_invalid by auto. cbn.
    split; [tauto|]. intros (_ & [=] & _).
  - unfold run. rewrite callback_invalid by auto. cbn.
    split; [tauto|]. intros ([=] & _).
Qed.

Lemma callback_trusts_only_queried_status_witness :
  run (handleCallback Scenario.config (Scenario.gateway 2 0) Scenario.callback)
      (Scenario.db "Pending")
  = run (handleCallback Scenario.config (Scenario.gateway 2 0) Scenario.forgedCallback)
        (Scenario.db "Pending").
Proof.
  apply (callback_trusts_only_queried_status Scenario.config (Scenario.gateway 2 0)
           Scenario.callback Scenario.forgedCallback (Scenario.db "Pending"));
    reflexivity.
Defined.

(** C3.  A completed callback for an order that is not yet 'Processing',
    whose user document exists (under a non-empty id, as every document is)
    and whose status reply names the payment method by a string, so that
    the update is accepted, commits [pointsEarned = floor (subtotal / 100)]
    on the order and [points = (points or 0) - pointsRedeemed + pointsEarned]
    on the user.
    The numbers are integers that JavaScript computes with exactly; [Z.div]
    by 100 is the floor of the quotient, which the first conjunct spells
    out. *)
Theorem completed_callback_credits_points cfg env req db tid ref data sc pm o u :
  query req !! "OrderTrackingId" = Some tid ->
  query req !! "OrderMerchantReference" = Some ref ->
  tid <> "" -> ref <> "" ->
  queriedStatus cfg env (Some tid) = Some data ->
  JS.getProp data "status_code" = JS.Ok sc ->
  JS.strictEqNum sc 1 = true ->
  JS.getProp data "payment_method" = JS.Ok (JS.Str pm) ->
  Firestore.orders db !! ref = Some o ->
  Firestore.status o <> "Processing" ->
  Firestore.user_id (Firestore.user o) <> "" ->
  Firestore.users db !! Firestore.user_id (Firestore.user o) = Some u ->
  exactPoints o u ->
  let pointsEarned := Firestore.subtotal o / 100 in
  let newPoints :=
    match Firestore.points u with Some p => p | None => 0 end
    - Firestore.pointsRedeemed o + pointsEarned in
  let db' := store (snd (run (handleCallback cfg env req) db)) in
  100 * pointsEarned <= Firestore.subtotal o < 100 * (pointsEarned + 1)
  /\ fst (run (handleCallback cfg env req) db) = JS.Ok callbackReceived
  /\ exists o' u',
       Firestore.orders db' !! ref = Some o'
       /\ Firestore.status o' = "Processing"
       /\ Firestore.pointsEarned o' = Some pointsEarned
       /\ Firestore.users db' !! Firestore.user_id (Firestore.user o) = Some u'
       /\ Firestore.points u' = Some newPoints.
Proof.
  intros Htid Href Htid_ne Href_ne Hq Hsc H1 Hpm Ho Hst Hid Hu _
    pointsEarned newPoints db'.
  destruct (queriedStatus_inv _ _ _ _ Hq) as (tok & Htok & Hdata).
  rewrite (getProp_defined _ _ _ Hsc "payment_method") in Hpm.
  assert (JS.hasUndefined (JS.optProp data "payment_method") = false) as Hdef
    by (injection Hpm as ->; reflexivity).
  subst db'.
  rewrite (callback_completed_applied cfg env req db tid ref
             Htid Href Htid_ne Href_ne tok data sc Htok Hdata Hsc o u
             Hdef H1 Ho Hst Hid Hu).
  cbn [fst snd store Firestore.orders Firestore.users].
  split.
  { subst pointsEarned.
    pose proof (Z.div_mod (Firestore.subtotal o) 100 ltac:(lia)).
    pose proof (Z.mod_pos_bound (Firestore.subtotal o) 100 ltac:(lia)). lia. }
  split; [reflexivity|].
  exists (processedOrder env (Some tid) data o), (creditedUser o u).
  rewrite !lookup_insert_eq. repeat split.
Qed.

Lemma completed_callback_credits_points_witness :
  fst (run (handleCallback Scenario.config (Scenario.gateway 1 0) Scenario.callback)
         (Scenario.db "Pending")) = JS.Ok callbackReceived
  /\ exists o' u',
       Firestore.orders
         (store (snd (run (handleCallback Scenario.config (Scenario.gateway 1 0)
                             Scenario.callback) (Scenario.db "Pending")))) !! "o1"
         = Some o'
       /\ Firestore.status o' = "Processing"
       /\ Firestore.pointsEarned o' = Some 2
       /\ Firestore.users
            (store (snd (run (handleCallback Scenario.config (Scenario.gateway 1 0)
                                Scenario.callback) (Scenario.db "Pending")))) !! "u1"
          = Some u'
       /\ Firestore.points u' = Some 32.
Proof.
  apply (completed_callback_credits_points Scenario.config (Scenario.gateway 1 0)
           Scenario.callback (Scenario.db "Pending") "t1" "o1"
           (Replies.status 1) (JS.Num 1) "MpesaKE"
           (Scenario.order "Pending") Scenario.user);
    first [ reflexivity | discriminate | repeat split; reflexivity ].
Defined.

(** C5.  A callback whose freshly queried status code is anything but the
    number 1 performs one store operation, an update of the referenced order
    outside any transaction; that update sets the order's status to
    'Payment Failed' and leaves its other fields, the other orders and every
    user document as they were. *)
Theorem failed_callback_only_sets_status cfg env req db tid ref sc :
  query req !! "OrderTrackingId" = Some tid ->
  query req !! "OrderMerchantReference" = Some ref ->
  tid <> "" -> ref <> "" ->
  queriedStatusCode cfg env (Some tid) = Some sc ->
  JS.strictEqNum sc 1 = false ->
  let w' := snd (run (handleCallback cfg env req) db) in
  List.filter isStoreEvent (trace w') = [DocUpdate "orders" ref]
  /\ Firestore.users (store w') = Firestore.users db
  /\ (forall id, id <> ref ->
        Firestore.orders (store w') !! id = Firestore.orders db !! id)
  /\ (forall o, Firestore.orders db !! ref = Some o ->
        Firestore.orders (store w') !! ref =
          Some {| Firestore.status := "Payment Failed";
                  Firestore.subtotal := Firestore.subtotal o;
                  Firestore.pointsRedeemed := Firestore.pointsRedeemed o;
                  Firestore.pointsEarned := Firestore.pointsEarned o;
                  Firestore.user := Firestore.user o;
                  Firestore.paymentDetails := Firestore.paymentDetails o;
                  Firestore.other := Firestore.other o |}).
Proof.
  intros Htid Href Htid_ne Href_ne Hq H1 w'.
  destruct (queriedStatusCode_inv _ _ _ _ Hq) as (tok & data & Htok & Hdata & Hsc).
  subst w'. destruct (Firestore.orders db !! ref) as [o|] eqn:Ho.
  - rewrite (callback_failed_order_present cfg env req db tid ref
               Htid Href Htid_ne Href_ne tok data sc Htok Hdata Hsc o H1 Ho).
    cbn [snd store trace Firestore.orders Firestore.users].
    repeat split.
    + intros id Hid. now rewrite lookup_insert_ne.
    + intros o' [= <-]. now rewrite lookup_insert_eq.
  - rewrite (callback_failed_order_absent cfg env req db tid ref
               Htid Href Htid_ne Href_ne tok data sc Htok Hdata Hsc H1 Ho).
    cbn [snd store trace]. repeat split. intros o [=].
Qed.

Lemma failed_callback_only_sets_status_witness :
  Firestore.users
    (store (snd (run (handleCallback Scenario.config (Scenario.gateway 2 0)
                        Scenario.callback) (Scenario.db "Pending"))))
  = {[ "u1" := Scenario.user ]}
  /\ Firestore.orders
       (store (snd (run (handleCallback Scenario.config (Scenario.gateway 2 0)
                           Scenario.callback) (Scenario.db "Pending")))) !! "o1"
     = Some (Scenario.order "Payment Failed").
Proof.
  pose proof (failed_callback_only_sets_status Scenario.config (Scenario.gateway 2 0)
                Scenario.callback (Scenario.db "Pending") "t1" "o1" (JS.Num 2)
                eq_refl eq_refl ltac:(discriminate) ltac:(discriminate)
                eq_refl eq_refl) as (_ & Hu & _ & Ho).
  split; [exact Hu|]. exact (Ho (Scenario.order "Pending") eq_refl).
Defined.

(** C9.  When the completed-callback transaction finds no order under the
    merchant reference, or finds the order waiting and no user document under
    the order's user id, it aborts: nothing is written, the store is the one
    it found, and the handler answers 500. *)
Theorem completed_callback_aborts_on_missing_document cfg env req db tid ref sc :
  query req !! "OrderTrackingId" = Some tid ->
  query req !! "OrderMerchantReference" = Some ref ->
  tid <> "" -> ref <> "" ->
  queriedStatusCode cfg env (Some tid) = Some sc ->
  JS.strictEqNum sc 1 = true ->
  (Firestore.orders db !! ref = None
   \/ exists o,
        Firestore.orders db !! ref = Some o
        /\ Firestore.status o <> "Processing"
        /\ Firestore.users db !! Firestore.user_id (Firestore.user o) = None) ->
  let w' := snd (run (handleCallback cfg env req) db) in
  fst (run (handleCallback cfg env req) db) = JS.Ok ipnError
  /\ store w' = db
  /\ In TxAbort (trace w')
  /\ List.filter isWrite (trace w') = [].
Proof.
  intros Htid Href Htid_ne Href_ne Hq H1 Hmissing w'.
  destruct (queriedStatusCode_inv _ _ _ _ Hq) as (tok & data & Htok & Hdata & Hsc).
  subst w'. destruct Hmissing as [Ho | (o & Ho & Hst & Hu)].
  - rewrite (callback_completed_order_absent cfg env req db tid ref
               Htid Href Htid_ne Href_ne tok data sc Htok Hdata Hsc H1 Ho).
    cbn. intuition.
  - destruct (callback_completed_user_absent cfg env req db tid ref
                Htid Href Htid_ne Href_ne tok data sc Htok Hdata Hsc o H1 Ho Hst
                (or_intror Hu)) as (evs & -> & Hw & Hin).
    cbn. rewrite Hw. intuition.
Qed.

Lemma completed_callback_aborts_on_missing_document_witness :
  fst (run (handleCallback Scenario.config (Scenario.gateway 1 0) Scenario.callback)
         Scenario.dbNoUser) = JS.Ok ipnError
  /\ store (snd (run (handleCallback Scenario.config (Scenario.gateway 1 0)
                        Scenario.callback) Scenario.dbNoUser)) = Scenario.dbNoUser
  /\ In TxAbort
       (trace (snd (run (handleCallback Scenario.config (Scenario.gateway 1 0)
                           Scenario.callback) Scenario.dbNoUser)))
  /\ List.filter isWrite
       (trace (snd (run (handleCallback Scenario.config (Scenario.gateway 1 0)
                           Scenario.callback) Scenario.dbNoUser))) = [].
Proof.
  apply (completed_callback_aborts_on_missing_document Scenario.config
           (Scenario.gateway 1 0) Scenario.callback Scenario.dbNoUser
           "t1" "o1" (JS.Num 1)).
  - reflexivity.
  - reflexivity.
  - discriminate.
  - discriminate.
  - reflexivity.
  - reflexivity.
  - right. exists (Scenario.order "Pending").
    split; [reflexivity|]. split; [discriminate|reflexivity].
Defined.




(** C4, as stated, fails: a callback whose freshly queried status code is
    2, for an order that is 'Processing', sets the order's status to
    'Payment Failed'. *)
Lemma failed_callback_overwrites_processing : ~ ProcessingIsTerminal.
Proof.
  intros H.
  destruct (H Scenario.config (Scenario.gateway 2 0) PesapalCallback Scenario.callback
              (Scenario.db "Processing") "o1" (Scenario.order "Processing")
              eq_refl eq_refl) as (o' & Ho' & Hst).
  vm_compute in Ho'. injection Ho' as <-. discriminate Hst.
Qed.

(** C4, amended.  An order whose status is 'Processing' is left as it is,
    status and every other field, by every handler invocation except a
    callback for that order whose freshly queried status code is not 1; such
    a callback sets its status to 'Payment Failed'. *)
Theorem processing_kept_unless_failed_callback cfg env route req db id o :
  Firestore.orders db !! id = Some o ->
  Firestore.status o = "Processing" ->
  let db' := store (snd (run (app cfg env route req) db)) in
  (failedCallbackFor cfg env route req id ->
     Firestore.orders db' !! id = Some (failedOrder o))
  /\ (~ failedCallbackFor cfg env route req id ->
     Firestore.orders db' !! id = Some o).
Proof.
  intros Ho Hst db'. subst db'. split.
  - intros (-> & Href & Hid & Pt & sc & Hq & H1).
    apply paramTruthy_inv in Pt as (tid & Htid & Htid_ne). rewrite Htid in Hq.
    destruct (queriedStatusCode_inv _ _ _ _ Hq) as (tok & data & Htok & Hdata & Hsc).
    cbn [app].
    rewrite (callback_failed_order_present cfg env req db tid id
               Htid Href Htid_ne Hid tok data sc Htok Hdata Hsc o H1 Ho).
    cbn. apply lookup_insert_eq.
  - intros Hnot. destruct route; cbn [app]; try exact Ho.
    + destruct (readOnly_handleOrder cfg env req
                  {| store := db; pending := []; trace := [] |}) as [Hs _].
      unfold run. rewrite Hs. exact Ho.
    + destruct (paramTruthy (query req !! "OrderTrackingId")) eqn:Pt;
        [destruct (paramTruthy (query req !! "OrderMerchantReference")) eqn:Pr|];
        [|unfold run; rewrite callback_invalid by auto; exact Ho..].
      pose proof Pt as Pt'.
      apply paramTruthy_inv in Pt as (tid & Htid & Htid_ne).
      apply paramTruthy_inv in Pr as (ref & Href & Href_ne).
      destruct (queriedStatusCode cfg env (Some tid)) as [sc|] eqn:Hq.
      * destruct (queriedStatusCode_inv _ _ _ _ Hq)
          as (tok & data & Htok & Hdata & Hsc).
        destruct (JS.strictEqNum sc 1) eqn:H1.
        -- destruct (callback_completed_cases cfg env req db tid ref tok data sc
                       Htid Href Htid_ne Href_ne Htok Hdata Hsc H1)
             as (_ & [-> | (o2 & u & Ho2 & Hst2 & _ & ->)]); [exact Ho|].
           cbn. destruct (decide (ref = id)) as [->|Hne].
           ++ congruence.
           ++ now rewrite lookup_insert_ne.
        -- destruct (decide (ref = id)) as [->|Hne].
           { destruct Hnot. unfold failedCallbackFor. rewrite Htid in Pt' |- *.
             repeat split; eauto. }
           destruct (Firestore.orders db !! ref) as [o2|] eqn:Ho2.
           ++ rewrite (callback_failed_order_present cfg env req db tid ref
                         Htid Href Htid_ne Href_ne tok data sc Htok Hdata Hsc o2 H1 Ho2).
              cbn. now rewrite lookup_insert_ne.
           ++ rewrite (callback_failed_order_absent cfg env req db tid ref
                         Htid Href Htid_ne Href_ne tok data sc Htok Hdata Hsc H1 Ho2).
              exact Ho.
      * destruct (callback_query_failed cfg env req db tid ref
                    Htid Href Htid_ne Href_ne Hq) as (evs & -> & _).
        exact Ho.
    + destruct (readOnly_transactionStatus cfg env statusExpress req
                  {| store := db; pending := []; trace := [] |}) as [Hs _].
      unfold run, handleTransactionStatusExpress. rewrite Hs. exact Ho.
Qed.

Lemma processing_kept_unless_failed_callback_witness :
  Firestore.orders
    (store (snd (run (app Scenario.config (Scenario.gateway 1 0) PesapalCallback
                        Scenario.callback) (Scenario.db "Processing")))) !! "o1"
  = Some (Scenario.order "Processing").
Proof.
  apply (processing_kept_unless_failed_callback Scenario.config (Scenario.gateway 1 0)
           PesapalCallback Scenario.callback (Scenario.db "Processing")
           "o1" (Scenario.order "Processing")).
  - reflexivity.
  - reflexivity.
  - intros (_ & _ & _ & _ & sc & Hq & H1).
    vm_compute in Hq. injection Hq as <-. discriminate H1.
Defined.

(** * Further properties of the code *)

(** ** Authentication *)

Lemma authToken_cases env :
  authToken env =
    match tokenReply env with
    | None | Some JS.Undefined | Some JS.Null => None
    | Some data => Some (JS.optProp data "token")
    end.
Proof.
  unfold authToken. destruct (tokenReply env) as [[]|]; reflexivity.
Qed.

Lemma getProp_truthy v k :
  JS.truthy v = true -> JS.getProp v k = JS.Ok (JS.optProp v k).
Proof. destruct v; cbn; intros H; try discriminate; reflexivity. Qed.

(** X1.  [getPesapalAuthToken] makes one token request.  When the request is
    rejected, or its reply carries no data to read a token from, the failure
    is logged and replaced by the fixed error "Could not authenticate with
    Pesapal."; otherwise the reply's [token] is returned as it is, which is
    [undefined] when the reply has no such field.  The store is never
    touched. *)
Theorem auth_token_outcomes env w :
  getPesapalAuthToken env w =
    match tokenReply env with
    | None | Some JS.Undefined | Some JS.Null =>
        (JS.Throw (JS.Error (JS.Str "Could not authenticate with Pesapal.")),
         {| store := store w; pending := pending w;
            trace := trace w ++ [GwRequestToken; Log "Error getting Pesapal token:"] |})
    | Some data =>
        (JS.Ok (default JS.Undefined
                  (match data with JS.Obj fields => fields !! "token" | _ => None end)),
         {| store := store w; pending := pending w;
            trace := trace w ++ [GwRequestToken] |})
    end.
Proof.
  pose proof (authToken_cases env) as Hc.
  destruct (tokenReply env) as [data|] eqn:Hr.
  - destruct data;
      first [ rewrite (getPesapalAuthToken_fail env w Hc); reflexivity
            | rewrite (getPesapalAuthToken_ok env _ w Hc); reflexivity ].
  - rewrite (getPesapalAuthToken_fail env w Hc). reflexivity.
Qed.

(** ** The order-submission handler *)

Lemma handleOrder_valid cfg env req w :
  JS.truthy (JS.field (body req) "order") = true ->
  JS.truthy (JS.field (body req) "orderId") = true ->
  handleOrder cfg env req w =
    tryCatch
      (let! authToken := getPesapalAuthToken env in
       let! payload := liftR (pesapalOrderData cfg (JS.field (body req) "order")
                                (JS.field (body req) "orderId")) in
       emit (GwSubmitOrder payload authToken) ;;
       let! data := await (submitReply env payload authToken) in
       let! redirect_url :=
         (if JS.truthy data then liftR (JS.getProp data "redirect_url")
          else ret data) in
       if JS.truthy redirect_url then
         json 200 (JS.object [ ("success", JS.Bool true);
                               ("paymentUrl", redirect_url) ])
       else
         let! err := liftR (JS.getProp data "error") in
         throw (JS.Error (JS.or (JS.optProp err "message")
                                (JS.Str "Failed to submit order to Pesapal."))))
      (fun error =>
         consoleError "Pesapal order submission failed:" ;;
         json 500 (JS.object
           [ ("success", JS.Bool false);
             ("message", JS.Str "Server error while creating payment request.") ])) w.
Proof. intros Ho Hi. unfold handleOrder. now rewrite Ho, Hi. Qed.

(** X2.  A well-formed submission that authenticates is answered by what
    the gateway's reply holds: [{success: true, paymentUrl}] with the reply's
    [redirect_url] when the reply has a truthy one, and the generic 500
    otherwise (a rejected request, an empty reply, an error payload).  Either
    way the gateway is called twice, for the token and for the order, and the
    store is not touched. *)
Theorem order_submission_outcome cfg env req db order u oid name tok :
  JS.field (body req) "order" = order ->
  JS.field (body req) "orderId" = JS.Str oid ->
  oid <> "" ->
  JS.getProp order "user" = JS.Ok u ->
  JS.getProp u "name" = JS.Ok (JS.Str name) ->
  authToken env = Some tok ->
  let payload := orderRequest cfg order oid name in
  run (handleOrder cfg env req) db =
    match redirectUrl (submitReply env payload tok) with
    | Some url =>
        (JS.Ok (paymentCreated url),
         {| store := db; pending := [];
            trace := [GwRequestToken; GwSubmitOrder payload tok] |})
    | None =>
        (JS.Ok paymentRequestFailed,
         {| store := db; pending := [];
            trace := [GwRequestToken; GwSubmitOrder payload tok;
                      Log "Pesapal order submission failed:"] |})
    end.
Proof.
  intros Ho Hi Hne Hu Hn Htok payload. subst payload. unfold run, handleOrder.
  rewrite Ho, Hi.
  assert (JS.truthy order = true) as ->.
  { destruct order; try reflexivity; cbn in Hu; try discriminate;
      injection Hu as <-; discriminate. }
  apply String.eqb_neq in Hne. cbn [JS.truthy]. rewrite Hne. cbn [negb orb].
  unfold tryCatch, bindM at 1.
  rewrite (getPesapalAuthToken_ok _ _ _ Htok).
  unfold bindM at 1, liftR at 1. rewrite (pesapalOrderData_ok cfg order u oid name Hu Hn).
  unfold bindM at 1, emit at 1, bindM at 1. unfold redirectUrl.
  destruct (submitReply env (orderRequest cfg order oid name) tok) as [data|];
    [|reflexivity].
  unfold await, ret at 1. unfold bindM at 1.
  destruct (JS.truthy data) eqn:Hd; cbn [andb].
  - unfold liftR at 1. rewrite (getProp_truthy _ "redirect_url" Hd).
    destruct (JS.truthy (JS.optProp data "redirect_url")); [reflexivity|].
    unfold bindM at 1, liftR at 1. rewrite (getProp_truthy _ "error" Hd). reflexivity.
  - unfold ret at 1. rewrite Hd. unfold bindM at 1, liftR at 1.
    destruct (JS.getProp data "error"); reflexivity.
Qed.

Lemma order_submission_outcome_witness :
  fst (run (handleOrder Scenario.config Sample.gatewayRejecting
              (Scenario.submission "Jo Doe")) (Scenario.db "Pending"))
  = JS.Ok paymentRequestFailed.
Proof.
  rewrite (order_submission_outcome Scenario.config Sample.gatewayRejecting
             (Scenario.submission "Jo Doe") (Scenario.db "Pending")
             (Scenario.submittedOrder "Jo Doe")
             (JS.object [ ("email", JS.Str "a@b.com"); ("phone", JS.Str "1");
                          ("name", JS.Str "Jo Doe") ])
             "abcdef1234" "Jo Doe" (JS.Str "tok"));
    first [ reflexivity | discriminate ].
Defined.

(** X3.  Whatever the request and whatever the gateway does, the order
    handler answers, and with one of three responses: the 400 for missing
    data, the generic 500, or [{success: true, paymentUrl}] with a truthy
    URL.  What the gateway reported as the cause of a failure never reaches
    the caller. *)
Theorem order_submission_never_leaks cfg env req w :
  exists r,
    fst (handleOrder cfg env req w) = JS.Ok r
    /\ (r = missingOrderData \/ r = paymentRequestFailed
        \/ exists url, JS.truthy url = true /\ r = paymentCreated url).
Proof.
  destruct (JS.truthy (JS.field (body req) "order")) eqn:Ho;
    [destruct (JS.truthy (JS.field (body req) "orderId")) eqn:Hi|];
    [|rewrite handleOrder_invalid by auto; eauto..].
  rewrite handleOrder_valid by assumption.
  unfold tryCatch, bindM at 1.
  destruct (getPesapalAuthToken env w) as [[tok|e] w1]; [|cbn; eauto].
  unfold bindM at 1, liftR at 1.
  destruct (pesapalOrderData cfg _ _) as [payload|e]; [|cbn; eauto].
  unfold bindM at 1, emit at 1, bindM at 1.
  destruct (submitReply env payload tok) as [data|]; [|cbn; eauto].
  unfold await, ret at 1. unfold bindM at 1.
  destruct (JS.truthy data) eqn:Hd.
  - unfold liftR at 1. rewrite (getProp_truthy _ "redirect_url" Hd).
    destruct (JS.truthy (JS.optProp data "redirect_url")) eqn:Hr.
    + cbn. eexists. split; [reflexivity|]. right. right. eauto.
    + unfold bindM at 1, liftR at 1. rewrite (getProp_truthy _ "error" Hd).
      cbn. eauto.
  - unfold ret at 1. rewrite Hd. unfold bindM at 1, liftR at 1.
    destruct (JS.getProp data "error"); cbn; eauto.
Qed.

(** X4.  When authentication fails, a submission that passed validation is
    answered with the generic 500 and the order is never submitted: the token
    request is the only gateway call. *)
Theorem order_submission_stops_at_failed_auth cfg env req db :
  JS.truthy (JS.field (body req) "order") = true ->
  JS.truthy (JS.field (body req) "orderId") = true ->
  authToken env = None ->
  run (handleOrder cfg env req) db =
    (JS.Ok paymentRequestFailed,
     {| store := db; pending := [];
        trace := [GwRequestToken; Log "Error getting Pesapal token:";
                  Log "Pesapal order submission failed:"] |}).
Proof.
  intros Ho Hi Htok. unfold run. rewrite handleOrder_valid by assumption.
  unfold tryCatch, bindM at 1. rewrite (getPesapalAuthToken_fail _ _ Htok).
  reflexivity.
Qed.

Lemma order_submission_stops_at_failed_auth_witness :
  run (handleOrder Scenario.config Sample.gatewayDown (Scenario.submission "Jo Doe"))
      (Scenario.db "Pending") =
    (JS.Ok paymentRequestFailed,
     {| store := Scenario.db "Pending"; pending := [];
        trace := [GwRequestToken; Log "Error getting Pesapal token:";
                  Log "Pesapal order submission failed:"] |}).
Proof.
  apply (order_submission_stops_at_failed_auth Scenario.config Sample.gatewayDown
           (Scenario.submission "Jo Doe") (Scenario.db "Pending"));
    reflexivity.
Defined.

(** X5.  An [orderId] that is truthy but not a string (a JSON number, say)
    passes validation; the handler authenticates, fails to build the order
    request, and answers the generic 500 without submitting anything. *)
Theorem order_submission_non_string_id cfg env req db :
  JS.truthy (JS.field (body req) "order") = true ->
  JS.truthy (JS.field (body req) "orderId") = true ->
  (forall s, JS.field (body req) "orderId" <> JS.Str s) ->
  fst (run (handleOrder cfg env req) db) = JS.Ok paymentRequestFailed
  /\ store (snd (run (handleOrder cfg env req) db)) = db
  /\ List.filter isGatewayCall (trace (snd (run (handleOrder cfg env req) db)))
     = [GwRequestToken].
Proof.
  intros Ho Hi Hs.
  assert (exists e, pesapalOrderData cfg (JS.field (body req) "order")
                      (JS.field (body req) "orderId") = JS.Throw e) as [e He].
  { unfold pesapalOrderData. rewrite (getProp_truthy _ "total" Ho). cbn [JS.bind].
    destruct (JS.field (body req) "orderId"); cbn; eauto. now destruct (Hs s). }
  assert (exists evs,
            run (handleOrder cfg env req) db =
              (JS.Ok paymentRequestFailed,
               {| store := db; pending := []; trace := GwRequestToken :: evs |})
            /\ List.filter isGatewayCall evs = []) as (evs & -> & Hevs).
  { unfold run. rewrite handleOrder_valid by assumption.
    unfold tryCatch, bindM at 1.
    destruct (authToken env) as [tok|] eqn:Htok.
    - rewrite (getPesapalAuthToken_ok _ _ _ Htok).
      unfold bindM at 1, liftR at 1. rewrite He. eexists. split; reflexivity.
    - rewrite (getPesapalAuthToken_fail _ _ Htok). eexists. split; reflexivity. }
  cbn. now rewrite Hevs.
Qed.

Lemma order_submission_non_string_id_witness :
  fst (run (handleOrder Scenario.config (Scenario.gateway 1 0)
              Sample.submissionNumericId) (Scenario.db "Pending"))
    = JS.Ok paymentRequestFailed
  /\ store (snd (run (handleOrder Scenario.config (Scenario.gateway 1 0)
                        Sample.submissionNumericId) (Scenario.db "Pending")))
     = Scenario.db "Pending"
  /\ List.filter isGatewayCall
       (trace (snd (run (handleOrder Scenario.config (Scenario.gateway 1 0)
                           Sample.submissionNumericId) (Scenario.db "Pending"))))
     = [GwRequestToken].
Proof.
  apply (order_submission_non_string_id Scenario.config (Scenario.gateway 1 0)
           Sample.submissionNumericId (Scenario.db "Pending"));
    first [ reflexivity | intros s; discriminate ].
Defined.

(** ** The order request *)

Lemma substring_0_length n s :
  String.length (String.substring 0 n s) = Nat.min n (String.length s).
Proof.
  revert s. induction n as [|n IH]; intros [|c s]; cbn; try reflexivity.
  now rewrite IH.
Qed.

Lemma substring_0_prefix n s : String.prefix (String.substring 0 n s) s = true.
Proof.
  revert s. induction n as [|n IH]; intros [|c s]; cbn; try reflexivity.
  destruct (Ascii.ascii_dec c c) as [_|Hc]; [apply IH | now destruct Hc].
Qed.

Lemma substring_0_all n s :
  (String.length s <= n)%nat -> String.substring 0 n s = s.
Proof.
  revert s. induction n as [|n IH]; intros [|c s]; cbn; try reflexivity.
  - lia.
  - intros H. f_equal. apply IH. lia.
Qed.

Lemma noSpace_beforeFirstSpace s : noSpace (beforeFirstSpace s) = true.
Proof.
  induction s as [|c s IH]; cbn; [reflexivity|].
  destruct (Ascii.eqb c " ") eqn:E; cbn; [reflexivity|]. now rewrite E.
Qed.

Lemma noSpace_afterFirstSpace s : noSpace s = true -> afterFirstSpace s = None.
Proof.
  induction s as [|c s IH]; cbn; [reflexivity|].
  destruct (Ascii.eqb c " "); cbn; [discriminate|exact IH].
Qed.

(** X6.  The order request carries the order id whole as [id], and in its
    description the first 8 characters of the id: a prefix of the id of
    length [min 8 (length id)], hence the whole id when it has at most 8
    characters. *)
Theorem order_request_description_prefix cfg order u oid name :
  JS.getProp order "user" = JS.Ok u ->
  JS.getProp u "name" = JS.Ok (JS.Str name) ->
  exists p prefix,
    pesapalOrderData cfg order (JS.Str oid) = JS.Ok p
    /\ JS.getProp p "id" = JS.Ok (JS.Str oid)
    /\ JS.getProp p "description" =
         JS.Ok (JS.Str (String.append "Payment for Order #" prefix))
    /\ String.length prefix = Nat.min 8 (String.length oid)
    /\ String.prefix prefix oid = true
    /\ ((String.length oid <= 8)%nat -> prefix = oid).
Proof.
  intros Hu Hn. exists (orderRequest cfg order oid name), (String.substring 0 8 oid).
  split; [now apply pesapalOrderData_ok with u|].
  split; [reflexivity|]. split; [reflexivity|].
  split; [apply substring_0_length|].
  split; [apply substring_0_prefix|apply substring_0_all].
Qed.

Lemma order_request_description_prefix_witness :
  exists p prefix,
    pesapalOrderData Scenario.config (Scenario.submittedOrder "Jo Doe") (JS.Str "ab12")
      = JS.Ok p
    /\ JS.getProp p "id" = JS.Ok (JS.Str "ab12")
    /\ JS.getProp p "description" =
         JS.Ok (JS.Str (String.append "Payment for Order #" prefix))
    /\ String.length prefix = Nat.min 8 (String.length "ab12")
    /\ String.prefix prefix "ab12" = true
    /\ ((String.length "ab12" <= 8)%nat -> prefix = "ab12").
Proof.
  apply (order_request_description_prefix Scenario.config
           (Scenario.submittedOrder "Jo Doe")
           (JS.object [ ("email", JS.Str "a@b.com"); ("phone", JS.Str "1");
                        ("name", JS.Str "Jo Doe") ])
           "ab12" "Jo Doe"); reflexivity.
Defined.

(** X7.  The name split of the order request loses nothing: the first name
    holds no space; when the full name has a non-empty remainder after its
    first space, first name, a space and last name spell the full name
    again; when the full name has no space, both names are the full name;
    and the last name is empty only when the first name is. *)
Theorem order_request_name_round_trip cfg order u oid name :
  JS.getProp order "user" = JS.Ok u ->
  JS.getProp u "name" = JS.Ok (JS.Str name) ->
  exists p b first last,
    pesapalOrderData cfg order (JS.Str oid) = JS.Ok p
    /\ JS.getProp p "billing_address" = JS.Ok b
    /\ JS.getProp b "first_name" = JS.Ok (JS.Str first)
    /\ JS.getProp b "last_name" = JS.Ok (JS.Str last)
    /\ noSpace first = true
    /\ (forall rest, afterFirstSpace name = Some rest -> rest <> "" ->
          String.append first (String " " last) = name)
    /\ (noSpace name = true -> first = name /\ last = name)
    /\ (last = "" -> first = "").
Proof.
  intros Hu Hn.
  eexists (orderRequest cfg order oid name), _,
    (beforeFirstSpace name), (lastNameOf name).
  split; [now apply pesapalOrderData_ok with u|].
  split; [reflexivity|]. split; [reflexivity|]. split; [reflexivity|].
  split; [apply noSpace_beforeFirstSpace|].
  unfold lastNameOf. repeat split.
  - intros rest Hr Hne. rewrite Hr. apply String.eqb_neq in Hne. rewrite Hne.
    symmetry. now apply afterFirstSpace_some_eq.
  - apply afterFirstSpace_none_eq. now apply noSpace_afterFirstSpace.
  - rewrite (noSpace_afterFirstSpace _ H).
    apply afterFirstSpace_none_eq. now apply noSpace_afterFirstSpace.
  - destruct (afterFirstSpace name) as [rest|]; [|tauto].
    destruct (String.eqb_spec rest ""); [tauto|congruence].
Qed.

Lemma order_request_name_round_trip_witness :
  exists p b first last,
    pesapalOrderData Scenario.config (Scenario.submittedOrder "Mary Ann van Dyk")
      (JS.Str "abcdef1234") = JS.Ok p
    /\ JS.getProp p "billing_address" = JS.Ok b
    /\ JS.getProp b "first_name" = JS.Ok (JS.Str first)
    /\ JS.getProp b "last_name" = JS.Ok (JS.Str last)
    /\ noSpace first = true
    /\ (forall rest, afterFirstSpace "Mary Ann van Dyk" = Some rest -> rest <> "" ->
          String.append first (String " " last) = "Mary Ann van Dyk")
    /\ (noSpace "Mary Ann van Dyk" = true ->
          first = "Mary Ann van Dyk" /\ last = "Mary Ann van Dyk")
    /\ (last = "" -> first = "").
Proof.
  apply (order_request_name_round_trip Scenario.config
           (Scenario.submittedOrder "Mary Ann van Dyk")
           (JS.object [ ("email", JS.Str "a@b.com"); ("phone", JS.Str "1");
                        ("name", JS.Str "Mary Ann van Dyk") ])
           "abcdef1234" "Mary Ann van Dyk"); reflexivity.
Defined.

(** ** The callback handler *)

(** X8.  A notification that lacks [OrderTrackingId] or
    [OrderMerchantReference], or carries an empty one, is answered 400 at
    once: no gateway call, no store operation, no log line. *)
Theorem callback_rejects_missing_parameters cfg env req db :
  paramTruthy (query req !! "OrderTrackingId") = false \/
  paramTruthy (query req !! "OrderMerchantReference") = false ->
  run (handleCallback cfg env req) db =
    (JS.Ok invalidIpn, {| store := db; pending := []; trace := [] |}).
Proof. intros H. unfold run. now apply callback_invalid. Qed.

Lemma callback_rejects_missing_parameters_witness :
  run (handleCallback Scenario.config (Scenario.gateway 1 0) Sample.callbackNoRef)
      (Scenario.db "Pending") =
    (JS.Ok invalidIpn,
     {| store := Scenario.db "Pending"; pending := []; trace := [] |}).
Proof.
  apply (callback_rejects_missing_parameters Scenario.config (Scenario.gateway 1 0)
           Sample.callbackNoRef (Scenario.db "Pending")).
  right. reflexivity.
Defined.

(** X9.  When the status cannot be queried (authentication fails, the status
    request is rejected, or its reply carries no data), the callback handler
    answers 500 and performs no store operation at all: in particular the
    order is not marked 'Payment Failed'. *)
Theorem callback_without_status_leaves_store cfg env req db tid ref :
  query req !! "OrderTrackingId" = Some tid ->
  query req !! "OrderMerchantReference" = Some ref ->
  tid <> "" -> ref <> "" ->
  queriedStatusCode cfg env (Some tid) = None ->
  fst (run (handleCallback cfg env req) db) = JS.Ok ipnError
  /\ store (snd (run (handleCallback cfg env req) db)) = db
  /\ List.filter isStoreEvent (trace (snd (run (handleCallback cfg env req) db))) = [].
Proof.
  intros Htid Href Htid_ne Href_ne Hq.
  destruct (callback_query_failed cfg env req db tid ref Htid Href Htid_ne Href_ne Hq)
    as (evs & -> & Hevs).
  cbn. auto.
Qed.

Lemma callback_without_status_leaves_store_witness :
  fst (run (handleCallback Scenario.config Sample.gatewayDown Scenario.callback)
         (Scenario.db "Pending")) = JS.Ok ipnError
  /\ store (snd (run (handleCallback Scenario.config Sample.gatewayDown
                        Scenario.callback) (Scenario.db "Pending")))
     = Scenario.db "Pending"
  /\ List.filter isStoreEvent
       (trace (snd (run (handleCallback Scenario.config Sample.gatewayDown
                           Scenario.callback) (Scenario.db "Pending")))) = [].
Proof.
  apply (callback_without_status_leaves_store Scenario.config Sample.gatewayDown
           Scenario.callback (Scenario.db "Pending") "t1" "o1");
    first [ reflexivity | discriminate ].
Defined.

(** X10.  A callback whose queried status code is not 1, for a merchant
    reference under which there is no order, creates nothing: the update is
    rejected, the store stays as it was, and the handler answers 500. *)
Theorem failed_callback_creates_no_order cfg env req db tid ref sc :
  query req !! "OrderTrackingId" = Some tid ->
  query req !! "OrderMerchantReference" = Some ref ->
  tid <> "" -> ref <> "" ->
  queriedStatusCode cfg env (Some tid) = Some sc ->
  JS.strictEqNum sc 1 = false ->
  Firestore.orders db !! ref = None ->
  fst (run (handleCallback cfg env req) db) = JS.Ok ipnError
  /\ store (snd (run (handleCallback cfg env req) db)) = db.
Proof.
  intros Htid Href Htid_ne Href_ne Hq H1 Ho.
  destruct (queriedStatusCode_inv _ _ _ _ Hq) as (tok & data & Htok & Hdata & Hsc).
  rewrite (callback_failed_order_absent cfg env req db tid ref
             Htid Href Htid_ne Href_ne tok data sc Htok Hdata Hsc H1 Ho).
  split; reflexivity.
Qed.

Lemma failed_callback_creates_no_order_witness :
  fst (run (handleCallback Scenario.config (Scenario.gateway 2 0) Sample.callback2)
         (Scenario.db "Pending")) = JS.Ok ipnError
  /\ store (snd (run (handleCallback Scenario.config (Scenario.gateway 2 0)
                        Sample.callback2) (Scenario.db "Pending")))
     = Scenario.db "Pending".
Proof.
  apply (failed_callback_creates_no_order Scenario.config (Scenario.gateway 2 0)
           Sample.callback2 (Scenario.db "Pending") "t2" "o2" (JS.Num 2));
    first [ reflexivity | discriminate ].
Defined.

(** X11.  Whatever the request, the gateway and the store, the callback
    handler answers the provider, and with one of three responses: 400
    "Invalid IPN request.", 200 "Callback received successfully." or 500
    "Error processing IPN."; no exception leaves the handler. *)
Theorem callback_always_answers cfg env req w :
  exists r,
    fst (handleCallback cfg env req w) = JS.Ok r
    /\ (r = invalidIpn \/ r = callbackReceived \/ r = ipnError).
Proof.
  unfold handleCallback.
  destruct (negb (paramTruthy (query req !! "OrderTrackingId"))
            || negb (paramTruthy (query req !! "OrderMerchantReference")));
    [cbn; eauto|].
  unfold tryCatch, bindM at 1.
  destruct (getPesapalAuthToken env w) as [[tok|e] w1]; [|cbn; eauto].
  unfold bindM at 1, emit at 1, bindM at 1.
  destruct (statusReply env _ tok) as [data|]; [|cbn; eauto].
  unfold await, ret at 1. unfold bindM at 1, liftR at 1.
  destruct (JS.getProp data "status_code") as [sc|e]; [|cbn; eauto].
  unfold bindM at 1.
  match goal with
  | |- context [ (if ?b then ?m1 else ?m2) ?w0 ] =>
      destruct ((if b then m1 else m2) w0) as [[[]|e] w2]
  end; cbn; eauto.
Qed.

Section Delivered.

Variables (cfg : Config) (env : Env) (req : Request) (db : Firestore.Db).
Variables (tid ref : string) (sc : JS.val).
Hypothesis Htid : query req !! "OrderTrackingId" = Some tid.
Hypothesis Href : query req !! "OrderMerchantReference" = Some ref.
Hypothesis Htid_ne : tid <> "".
Hypothesis Href_ne : ref <> "".
Hypothesis Hq : queriedStatusCode cfg env (Some tid) = Some sc.



End Delivered.

Lemma afterCallback_applied cfg env req db tid ref data sc pm o u :
  query req !! "OrderTrackingId" = Some tid ->
  query req !! "OrderMerchantReference" = Some ref ->
  tid <> "" -> ref <> "" ->
  queriedStatus cfg env (Some tid) = Some data ->
  JS.getProp data "status_code" = JS.Ok sc ->
  JS.strictEqNum sc 1 = true ->
  JS.getProp data "payment_method" = JS.Ok pm ->
  JS.hasUndefined pm = false ->
  Firestore.orders db !! ref = Some o ->
  Firestore.status o <> "Processing" ->
  Firestore.user_id (Firestore.user o) <> "" ->
  Firestore.users db !! Firestore.user_id (Firestore.user o) = Some u ->
  afterCallback cfg env req db =
    {| Firestore.orders :=
         <[ref := processedOrder env (Some tid) data o]> (Firestore.orders db);
       Firestore.users :=
         <[Firestore.user_id (Firestore.user o) := creditedUser o u]>
           (Firestore.users db) |}.
Proof.
  intros Htid Href Htid_ne Href_ne Hq Hsc H1 Hpm Hdef Ho Hst Hid Hu.
  destruct (queriedStatus_inv _ _ _ _ Hq) as (tok & Htok & Hdata).
  rewrite (getProp_defined _ _ _ Hsc "payment_method") in Hpm. injection Hpm as <-.
  unfold afterCallback.
  now rewrite (callback_completed_applied cfg env req db tid ref
                 Htid Href Htid_ne Href_ne tok data sc Htok Hdata Hsc o u
                 Hdef H1 Ho Hst Hid Hu).
Qed.

(** X12.  Besides the points, a completed callback that is applied (the
    status reply names the payment method by a string, so the update is
    accepted) records on the order the payment details (the notification's
    tracking id, the payment method of the queried status reply, the time of
    the call) and keeps the order's subtotal, redeemed points, user and
    remaining fields; it keeps the user's other fields; and it leaves every
    other order and every other user as they were. *)
Theorem completed_callback_frame cfg env req db tid ref data sc pm o u :
  query req !! "OrderTrackingId" = Some tid ->
  query req !! "OrderMerchantReference" = Some ref ->
  tid <> "" -> ref <> "" ->
  queriedStatus cfg env (Some tid) = Some data ->
  JS.getProp data "status_code" = JS.Ok sc ->
  JS.strictEqNum sc 1 = true ->
  JS.getProp data "payment_method" = JS.Ok (JS.Str pm) ->
  Firestore.orders db !! ref = Some o ->
  Firestore.status o <> "Processing" ->
  Firestore.user_id (Firestore.user o) <> "" ->
  Firestore.users db !! Firestore.user_id (Firestore.user o) = Some u ->
  exactPoints o u ->
  let db' := afterCallback cfg env req db in
  Firestore.orders db' !! ref =
    Some {| Firestore.status := "Processing";
            Firestore.subtotal := Firestore.subtotal o;
            Firestore.pointsRedeemed := Firestore.pointsRedeemed o;
            Firestore.pointsEarned := Some (Firestore.subtotal o / 100);
            Firestore.user := Firestore.user o;
            Firestore.paymentDetails :=
              Some {| Firestore.trackingId := Some tid;
                      Firestore.method := JS.Str pm;
                      Firestore.confirmedOn := now env |};
            Firestore.other := Firestore.other o |}
  /\ (exists u',
        Firestore.users db' !! Firestore.user_id (Firestore.user o) = Some u'
        /\ Firestore.profile u' = Firestore.profile u)
  /\ (forall id, id <> ref ->
        Firestore.orders db' !! id = Firestore.orders db !! id)
  /\ (forall id, id <> Firestore.user_id (Firestore.user o) ->
        Firestore.users db' !! id = Firestore.users db !! id).
Proof.
  intros Htid Href Htid_ne Href_ne Hq Hsc H1 Hpm Ho Hst Hid Hu _ db'. subst db'.
  rewrite (afterCallback_applied cfg env req db tid ref data sc (JS.Str pm) o u)
    by (assumption || reflexivity).
  cbn [Firestore.orders Firestore.users].
  rewrite !lookup_insert_eq. unfold processedOrder.
  rewrite (getProp_defined _ _ _ Hsc "payment_method") in Hpm. injection Hpm as <-.
  split; [reflexivity|]. split; [eexists; split; reflexivity|].
  split; intros id Hne; now rewrite lookup_insert_ne.
Qed.

Lemma completed_callback_frame_witness :
  Firestore.orders
    (afterCallback Scenario.config (Scenario.gateway 1 1700000000000) Scenario.callback
       Sample.db2) !! "o1" =
    Some {| Firestore.status := "Processing";
            Firestore.subtotal := 250;
            Firestore.pointsRedeemed := 10;
            Firestore.pointsEarned := Some 2;
            Firestore.user := {| Firestore.user_id := "u1" |};
            Firestore.paymentDetails :=
              Some {| Firestore.trackingId := Some "t1";
                      Firestore.method := JS.Str "MpesaKE";
                      Firestore.confirmedOn := 1700000000000 |};
            Firestore.other := ∅ |}
  /\ Firestore.orders
       (afterCallback Scenario.config (Scenario.gateway 1 1700000000000)
          Scenario.callback Sample.db2) !! "o2" = Some Sample.order2.
Proof.
  pose proof (completed_callback_frame Scenario.config
                (Scenario.gateway 1 1700000000000) Scenario.callback Sample.db2
                "t1" "o1" (Replies.status 1)
                (JS.Num 1) "MpesaKE" (Scenario.order "Pending") Scenario.user)
    as H.
  destruct H as (Ho & _ & Hothers & _);
    try first [ reflexivity | discriminate
              | match goal with |- exactPoints _ _ => repeat split; reflexivity end ].
  split; [exact Ho|]. rewrite Hothers by discriminate. reflexivity.
Defined.

(** X13.  Completed callbacks for two different waiting orders of the same
    user add up, when both status replies name the payment method by a
    string and the numbers stay within the integers JavaScript computes with
    exactly: after both, in either order of delivery, both orders are
    'Processing' and the user's balance is the old one minus the points both
    orders redeemed plus the points both earned. *)
Theorem two_orders_credit_one_user
    cfg env1 env2 req1 req2 db tid1 ref1 data1 sc1 pm1 tid2 ref2 data2 sc2 pm2 o1 o2 u :
  query req1 !! "OrderTrackingId" = Some tid1 ->
  query req1 !! "OrderMerchantReference" = Some ref1 ->
  query req2 !! "OrderTrackingId" = Some tid2 ->
  query req2 !! "OrderMerchantReference" = Some ref2 ->
  tid1 <> "" -> ref1 <> "" -> tid2 <> "" -> ref2 <> "" ->
  ref1 <> ref2 ->
  queriedStatus cfg env1 (Some tid1) = Some data1 ->
  JS.getProp data1 "status_code" = JS.Ok sc1 -> JS.strictEqNum sc1 1 = true ->
  JS.getProp data1 "payment_method" = JS.Ok (JS.Str pm1) ->
  queriedStatus cfg env2 (Some tid2) = Some data2 ->
  JS.getProp data2 "status_code" = JS.Ok sc2 -> JS.strictEqNum sc2 1 = true ->
  JS.getProp data2 "payment_method" = JS.Ok (JS.Str pm2) ->
  Firestore.orders db !! ref1 = Some o1 -> Firestore.status o1 <> "Processing" ->
  Firestore.orders db !! ref2 = Some o2 -> Firestore.status o2 <> "Processing" ->
  Firestore.user_id (Firestore.user o1) = Firestore.user_id (Firestore.user o2) ->
  Firestore.user_id (Firestore.user o1) <> "" ->
  Firestore.users db !! Firestore.user_id (Firestore.user o1) = Some u ->
  exactPoints o1 u -> exactPoints o2 (creditedUser o1 u) ->
  exactPoints o2 u -> exactPoints o1 (creditedUser o2 u) ->
  let balance :=
    default 0 (Firestore.points u)
    - (Firestore.pointsRedeemed o1 + Firestore.pointsRedeemed o2)
    + (Firestore.subtotal o1 / 100 + Firestore.subtotal o2 / 100) in
  forall db',
    db' = afterCallback cfg env2 req2 (afterCallback cfg env1 req1 db) \/
    db' = afterCallback cfg env1 req1 (afterCallback cfg env2 req2 db) ->
    (exists o1' o2' u',
       Firestore.orders db' !! ref1 = Some o1'
       /\ Firestore.status o1' = "Processing"
       /\ Firestore.orders db' !! ref2 = Some o2'
       /\ Firestore.status o2' = "Processing"
       /\ Firestore.users db' !! Firestore.user_id (Firestore.user o1) = Some u'
       /\ Firestore.points u' = Some balance).
Proof.
  intros Ht1 Hr1 Ht2 Hr2 Nt1 Nr1 Nt2 Nr2 Hne Hq1 Hc1 H1 Hp1 Hq2 Hc2 H2 Hp2
    Ho1 Hs1 Ho2 Hs2 Hsame Hid Hu _ _ _ _ balance db' [-> | ->].
  - rewrite (afterCallback_applied cfg env1 req1 db tid1 ref1 data1 sc1
               (JS.Str pm1) o1 u) by (assumption || reflexivity).
    rewrite Hsame in Hid, Hu |- *.
    rewrite (afterCallback_applied cfg env2 req2 _ tid2 ref2 data2 sc2 (JS.Str pm2) o2
               (creditedUser o1 u));
      cbn [Firestore.orders Firestore.users];
      try first [ assumption
                | reflexivity
                | apply lookup_insert_eq
                | rewrite lookup_insert_ne by congruence; assumption ].
    repeat first [ rewrite lookup_insert_eq
                 | rewrite lookup_insert_ne by congruence ].
    eexists _, _, _. repeat split. cbn. f_equal. subst balance. lia.
  - rewrite Hsame in Hid, Hu |- *.
    rewrite (afterCallback_applied cfg env2 req2 db tid2 ref2 data2 sc2
               (JS.Str pm2) o2 u) by (assumption || reflexivity).
    rewrite <- Hsame in Hid, Hu |- *.
    rewrite (afterCallback_applied cfg env1 req1 _ tid1 ref1 data1 sc1 (JS.Str pm1) o1
               (creditedUser o2 u));
      cbn [Firestore.orders Firestore.users];
      try first [ assumption
                | reflexivity
                | apply lookup_insert_eq
                | rewrite lookup_insert_ne by congruence; assumption ].
    repeat first [ rewrite lookup_insert_eq
                 | rewrite lookup_insert_ne by congruence ].
    eexists _, _, _. repeat split. cbn. f_equal. subst balance. lia.
Qed.

Lemma two_orders_credit_one_user_witness :
  exists o1' o2' u',
    Firestore.orders
      (afterCallback Scenario.config (Scenario.gateway 1 5) Sample.callback2
         (afterCallback Scenario.config (Scenario.gateway 1 0) Scenario.callback
            Sample.db2)) !! "o1" = Some o1'
    /\ Firestore.status o1' = "Processing"
    /\ Firestore.orders
         (afterCallback Scenario.config (Scenario.gateway 1 5) Sample.callback2
            (afterCallback Scenario.config (Scenario.gateway 1 0) Scenario.callback
               Sample.db2)) !! "o2" = Some o2'
    /\ Firestore.status o2' = "Processing"
    /\ Firestore.users
         (afterCallback Scenario.config (Scenario.gateway 1 5) Sample.callback2
            (afterCallback Scenario.config (Scenario.gateway 1 0) Scenario.callback
               Sample.db2)) !! "u1" = Some u'
    /\ Firestore.points u' = Some 51.
Proof.
  apply (two_orders_credit_one_user Scenario.config (Scenario.gateway 1 0)
           (Scenario.gateway 1 5) Scenario.callback Sample.callback2 Sample.db2
           "t1" "o1" (Replies.status 1) (JS.Num 1) "MpesaKE"
           "t2" "o2" (Replies.status 1) (JS.Num 1) "MpesaKE"
           (Scenario.order "Pending") Sample.order2 Scenario.user);
    first [ reflexivity | discriminate | left; reflexivity
          | repeat split; reflexivity ].
Defined.





(** ** The status-query handler *)

Lemma transactionStatus_invalid cfg env mapping req w :
  paramTruthy (query req !! "pesapalTrackingId") = false ->
  transactionStatus cfg env mapping req w = (JS.Ok missingTrackingId, w).
Proof. unfold transactionStatus. now intros ->. Qed.

Lemma transactionStatus_ext cfg env m1 m2 req w :
  (forall sc, m1 sc = m2 sc) ->
  transactionStatus cfg env m1 req w = transactionStatus cfg env m2 req w.
Proof.
  intros Hm. unfold transactionStatus.
  destruct (negb (paramTruthy (query req !! "pesapalTrackingId"))); [reflexivity|].
  unfold tryCatch, bindM, emit, liftR.
  destruct (getPesapalAuthToken env w) as [[tok|e] w1]; [|reflexivity].
  destruct (await (statusReply env _ tok) _) as [[data|e] w2]; [|reflexivity].
  destruct (JS.getProp data "status_code") as [sc|e]; [|reflexivity].
  now rewrite Hm.
Qed.

(** X16.  A status query without [pesapalTrackingId], or with an empty one,
    is answered 400 with [{status: 'INVALID', description}] at once, by the
    Express route and by the serverless function alike: no gateway call, no
    log line, and the store is not touched. *)
Theorem status_query_rejects_missing_id cfg env req db :
  paramTruthy (query req !! "pesapalTrackingId") = false ->
  run (handleTransactionStatusExpress cfg env req) db =
    (JS.Ok missingTrackingId, {| store := db; pending := []; trace := [] |})
  /\ run (handleTransactionStatus cfg env req) db =
    (JS.Ok missingTrackingId, {| store := db; pending := []; trace := [] |}).
Proof.
  intros H. unfold run, handleTransactionStatusExpress, handleTransactionStatus.
  now rewrite !transactionStatus_invalid.
Qed.

Lemma status_query_rejects_missing_id_witness :
  run (handleTransactionStatusExpress Scenario.config (Scenario.gateway 1 0)
         Sample.statusQueryNoId) (Scenario.db "Pending") =
    (JS.Ok missingTrackingId,
     {| store := Scenario.db "Pending"; pending := []; trace := [] |})
  /\ run (handleTransactionStatus Scenario.config (Scenario.gateway 1 0)
            Sample.statusQueryNoId) (Scenario.db "Pending") =
    (JS.Ok missingTrackingId,
     {| store := Scenario.db "Pending"; pending := []; trace := [] |}).
Proof.
  apply (status_query_rejects_missing_id Scenario.config (Scenario.gateway 1 0)
           Sample.statusQueryNoId (Scenario.db "Pending")).
  reflexivity.
Defined.

(** X17.  When the status cannot be queried (authentication fails, the
    status request is rejected, or its reply carries no data), a status query
    is answered 500 with [{status: 'FAILED', description}], whichever copy of
    the handler runs. *)
Theorem status_query_gateway_failure cfg env req db tid :
  query req !! "pesapalTrackingId" = Some tid ->
  tid <> "" ->
  queriedStatusCode cfg env (Some tid) = None ->
  fst (run (handleTransactionStatusExpress cfg env req) db) = JS.Ok statusCheckFailed
  /\ fst (run (handleTransactionStatus cfg env req) db) = JS.Ok statusCheckFailed.
Proof.
  intros Htid Hne Hq.
  assert (forall mapping,
            fst (run (transactionStatus cfg env mapping req) db)
            = JS.Ok statusCheckFailed) as H.
  { intros mapping. unfold run, transactionStatus. rewrite Htid. cbn [paramTruthy].
    apply String.eqb_neq in Hne. rewrite Hne. cbn [negb].
    unfold queriedStatusCode, queriedStatus in Hq.
    unfold tryCatch, bindM at 1.
    destruct (authToken env) as [tok|] eqn:Htok.
    - rewrite (getPesapalAuthToken_ok _ _ _ Htok).
      fold (statusUrlOf cfg (Some tid)).
      unfold bindM at 1, emit at 1, bindM at 1.
      destruct (statusReply env (statusUrlOf cfg (Some tid)) tok) as [data|];
        [|reflexivity].
      unfold await, ret at 1. unfold bindM at 1, liftR at 1.
      destruct (JS.getProp data "status_code"); [discriminate|reflexivity].
    - rewrite (getPesapalAuthToken_fail _ _ Htok). reflexivity. }
  split; apply H.
Qed.

Lemma status_query_gateway_failure_witness :
  fst (run (handleTransactionStatusExpress Scenario.config Sample.gatewayDown
              Scenario.statusQuery) (Scenario.db "Pending")) = JS.Ok statusCheckFailed
  /\ fst (run (handleTransactionStatus Scenario.config Sample.gatewayDown
                 Scenario.statusQuery) (Scenario.db "Pending")) = JS.Ok statusCheckFailed.
Proof.
  apply (status_query_gateway_failure Scenario.config Sample.gatewayDown
           Scenario.statusQuery (Scenario.db "Pending") "t1");
    first [ reflexivity | discriminate ].
Defined.

(** X18.  The two copies of the status-query handler, the Express route with
    its [else if] chain and the serverless function with its three
    independent [if]s, behave alike on every request, gateway and store:
    same response, same effects. *)
Theorem status_handlers_agree cfg env req w :
  handleTransactionStatusExpress cfg env req w = handleTransactionStatus cfg env req w.
Proof.
  apply transactionStatus_ext. intros sc.
  now rewrite statusExpress_enum, statusServerless_enum.
Qed.

(** X19.  A status query is always answered, and with one of three
    responses: the 400 for a missing tracking id, the 500 for a failed
    lookup, or a 200 whose [status] is one of COMPLETED, FAILED, PENDING and
    INVALID. *)
Theorem status_query_always_answers cfg env req w :
  exists r,
    fst (handleTransactionStatus cfg env req w) = JS.Ok r
    /\ (r = missingTrackingId \/ r = statusCheckFailed
        \/ exists status payment_method description,
             r = {| code := 200;
                    content := Json (JS.object
                      [ ("status", JS.Str status);
                        ("payment_method", payment_method);
                        ("description", description) ]) |}
             /\ In status ["COMPLETED"; "FAILED"; "PENDING"; "INVALID"]).
Proof.
  unfold handleTransactionStatus, transactionStatus.
  destruct (negb (paramTruthy (query req !! "pesapalTrackingId"))); [cbn; eauto|].
  unfold tryCatch, bindM at 1.
  destruct (getPesapalAuthToken env w) as [[tok|e] w1]; [|cbn; eauto].
  unfold bindM at 1, emit at 1, bindM at 1.
  destruct (statusReply env _ tok) as [data|]; [|cbn; eauto].
  unfold await, ret at 1. unfold bindM at 1, liftR at 1.
  destruct (JS.getProp data "status_code") as [sc|e] eqn:Hsc; [|cbn; eauto].
  unfold bindM at 1, liftR at 1. rewrite (getProp_defined _ _ _ Hsc "payment_method").
  unfold bindM at 1, liftR at 1. rewrite (getProp_defined _ _ _ Hsc "description").
  cbn [json ret fst]. eexists. split; [reflexivity|]. right. right.
  eexists _, _, _. split; [reflexivity|].
  rewrite statusServerless_enum.
  destruct sc as [| |b|n|s|items|fields]; cbn; auto.
  destruct n as [|[[p|p|]|[p|p|]|]|p]; cbn; auto.
Qed.

(** ** What the handlers add to the trace *)

Create HintDb emits.


Lemma emitsOnly_ret {A} P (a : A) : emitsOnly P (ret a).
Proof. intros w. exists []. now rewrite app_nil_r. Qed.

Lemma emitsOnly_throw {A} P e : emitsOnly P (@throw A e).
Proof. intros w. exists []. now rewrite app_nil_r. Qed.

Lemma emitsOnly_liftR {A} P (r : JS.result A) : emitsOnly P (liftR r).
Proof. intros w. exists []. now rewrite app_nil_r. Qed.

Lemma emitsOnly_await P reply : emitsOnly P (await reply).
Proof. destruct reply; intros w; exists []; now rewrite app_nil_r. Qed.

Lemma emitsOnly_emit (P : Event -> bool) e : P e = true -> emitsOnly P (emit e).
Proof. intros H w. exists [e]. cbn. now rewrite H. Qed.

Lemma emitsOnly_bind {A B} P (m : M A) (k : A -> M B) :
  emitsOnly P m -> (forall a, emitsOnly P (k a)) -> emitsOnly P (bindM m k).
Proof.
  intros Hm Hk w. unfold bindM. destruct (Hm w) as (evs & Ht & Hp).
  destruct (m w) as [[a|e] w1]; cbn in *; [|eauto].
  destruct (Hk a w1) as (evs' & Ht' & Hp'). exists (evs ++ evs').
  rewrite Ht', Ht, <- app_assoc, forallb_app, Hp, Hp'. auto.
Qed.

Lemma emitsOnly_tryCatch {A} P (m : M A) (h : JS.exn -> M A) :
  emitsOnly P m -> (forall e, emitsOnly P (h e)) -> emitsOnly P (tryCatch m h).
Proof.
  intros Hm Hh w. unfold tryCatch. destruct (Hm w) as (evs & Ht & Hp).
  destruct (m w) as [[a|e] w1]; cbn in *; [eauto|].
  destruct (Hh e w1) as (evs' & Ht' & Hp'). exists (evs ++ evs').
  rewrite Ht', Ht, <- app_assoc, forallb_app, Hp, Hp'. auto.
Qed.

Lemma emitsOnly_if {A} P (b : bool) (m1 m2 : M A) :
  emitsOnly P m1 -> emitsOnly P m2 -> emitsOnly P (if b then m1 else m2).
Proof. now destruct b. Qed.

Lemma emitsOnly_quiet {A} P (f : World -> JS.result A * World) :
  (forall w, trace (snd (f w)) = trace w) -> emitsOnly P (f : M A).
Proof. intros H w. exists []. now rewrite app_nil_r. Qed.

#[local] Hint Resolve emitsOnly_ret emitsOnly_throw emitsOnly_liftR emitsOnly_await
  emitsOnly_emit emitsOnly_bind emitsOnly_tryCatch emitsOnly_if : emits.
#[local] Hint Extern 1 (_ = true) => reflexivity : emits.

Lemma forallb_negb_filter {A} (P : A -> bool) (l : list A) :
  forallb (fun x => negb (P x)) l = true -> List.filter P l = [].
Proof.
  induction l as [|x l IH]; cbn; [reflexivity|].
  destruct (P x); cbn; [discriminate|exact IH].
Qed.

Lemma emitsOnly_rest_of_auth P env :
  P GwRequestToken = true ->
  P (Log "Error getting Pesapal token:") = true ->
  emitsOnly P (getPesapalAuthToken env).
Proof.
  intros H1 H2. unfold getPesapalAuthToken, consoleError. auto 10 with emits.
Qed.

(** X20.  Neither the order handler nor the status handler, in either copy,
    ever reads or writes the document store: whatever the request and the
    gateway, the store after the call is the store before it, and the trace
    holds no store operation. *)
Theorem order_and_status_handlers_leave_store_alone cfg env req db :
  (store (snd (run (handleOrder cfg env req) db)) = db
   /\ List.filter isStoreEvent (trace (snd (run (handleOrder cfg env req) db))) = [])
  /\ (store (snd (run (handleTransactionStatusExpress cfg env req) db)) = db
      /\ List.filter isStoreEvent
           (trace (snd (run (handleTransactionStatusExpress cfg env req) db))) = [])
  /\ (store (snd (run (handleTransactionStatus cfg env req) db)) = db
      /\ List.filter isStoreEvent
           (trace (snd (run (handleTransactionStatus cfg env req) db))) = []).
Proof.
  assert (emitsOnly notStore (handleOrder cfg env req)) as Eo.
  { unfold handleOrder, json, consoleError.
    pose proof (emitsOnly_rest_of_auth notStore env eq_refl eq_refl).
    auto 20 with emits. }
  assert (forall mapping, emitsOnly notStore (transactionStatus cfg env mapping req))
    as Es.
  { intros mapping. unfold transactionStatus, json, consoleError.
    pose proof (emitsOnly_rest_of_auth notStore env eq_refl eq_refl).
    auto 20 with emits. }
  unfold run, handleTransactionStatusExpress, handleTransactionStatus.
  repeat split.
  - apply readOnly_handleOrder.
  - destruct (Eo {| store := db; pending := []; trace := [] |}) as (evs & -> & Hp).
    now apply forallb_negb_filter.
  - apply readOnly_transactionStatus.
  - destruct (Es statusExpress {| store := db; pending := []; trace := [] |})
      as (evs & -> & Hp).
    now apply forallb_negb_filter.
  - apply readOnly_transactionStatus.
  - destruct (Es statusServerless {| store := db; pending := []; trace := [] |})
      as (evs & -> & Hp).
    now apply forallb_negb_filter.
Qed.

Lemma emitsOnly_transaction env ref tid data :
  emitsOnly notToken (runTransaction (completedTransaction env ref tid data)).
Proof.
  assert (emitsOnly notToken clearPending) as Hc
    by (apply emitsOnly_quiet; reflexivity).
  assert (emitsOnly notToken commit) as Hcommit.
  { intros w. unfold commit.
    destruct (Firestore.applyWrites (pending w) (store w)); eexists; split;
      reflexivity. }
  assert (forall wr, emitsOnly notToken (txUpdate wr)) as Hup.
  { intros wr. unfold txUpdate. apply emitsOnly_if; [|auto with emits].
    apply emitsOnly_bind; [auto with emits|].
    intros _. apply emitsOnly_quiet. reflexivity. }
  unfold runTransaction, completedTransaction, txGetOrder, txGetUser.
  apply emitsOnly_bind; [auto with emits|]. intros _.
  apply emitsOnly_bind; [exact Hc|]. intros _.
  apply emitsOnly_bind; [|intros _; exact Hcommit].
  apply emitsOnly_tryCatch; [|auto 10 with emits].
  apply emitsOnly_bind.
  { apply emitsOnly_bind; [auto with emits|]. intros _.
    apply emitsOnly_quiet. reflexivity. }
  intros [o|]; [|auto with emits].
  apply emitsOnly_if; [auto with emits|].
  apply emitsOnly_bind; [auto with emits|]. intros uid.
  apply emitsOnly_bind.
  { apply emitsOnly_bind; [auto with emits|]. intros _.
    apply emitsOnly_quiet. reflexivity. }
  intros [u|]; auto 10 with emits.
Qed.

Lemma emitsOnly_docUpdate wr : emitsOnly notToken (docUpdate wr).
Proof.
  unfold docUpdate. apply emitsOnly_if; [|auto with emits].
  apply emitsOnly_bind; [auto with emits|]. intros _ w.
  exists []. rewrite app_nil_r.
  destruct (Firestore.applyWrite wr (store w)); auto.
Qed.

Lemma auth_comes_first {A} env (rest : JS.val -> M A) (h : JS.exn -> M A) db :
  (forall tok, emitsOnly notToken (rest tok)) ->
  (forall e, emitsOnly notToken (h e)) ->
  let t := trace (snd (run (tryCatch (bindM (getPesapalAuthToken env) rest) h) db)) in
  head t = Some GwRequestToken /\ List.filter isRequestToken t = [GwRequestToken].
Proof.
  intros Hrest Hh t. subst t. unfold run, tryCatch, bindM.
  destruct (authToken env) as [tok|] eqn:Htok.
  - rewrite (getPesapalAuthToken_ok _ _ _ Htok).
    destruct (emitsOnly_tryCatch notToken (rest tok) h (Hrest tok) Hh
                (logged {| store := db; pending := []; trace := [] |} [GwRequestToken]))
      as (evs & Ht & Hp).
    unfold tryCatch in Ht.
    destruct (rest tok _) as [[a|e] w1]; cbn in Ht |- *.
    + rewrite Ht. cbn. now rewrite (forallb_negb_filter _ _ Hp).
    + rewrite Ht. cbn. now rewrite (forallb_negb_filter _ _ Hp).
  - rewrite (getPesapalAuthToken_fail _ _ Htok).
    destruct (Hh (JS.Error (JS.Str "Could not authenticate with Pesapal."))
                (logged {| store := db; pending := []; trace := [] |}
                   [GwRequestToken; Log "Error getting Pesapal token:"]))
      as (evs & Ht & Hp).
    rewrite Ht. cbn. now rewrite (forallb_negb_filter _ _ Hp).
Qed.

(** X21.  No token is cached or reused: every invocation of a handler that
    passes validation begins by requesting a token from the gateway, and
    requests exactly one. *)
Theorem every_invocation_authenticates_once cfg env req db :
  (JS.truthy (JS.field (body req) "order") = true ->
   JS.truthy (JS.field (body req) "orderId") = true ->
   let t := trace (snd (run (handleOrder cfg env req) db)) in
   head t = Some GwRequestToken /\ List.filter isRequestToken t = [GwRequestToken])
  /\ (paramTruthy (query req !! "OrderTrackingId") = true ->
      paramTruthy (query req !! "OrderMerchantReference") = true ->
      let t := trace (snd (run (handleCallback cfg env req) db)) in
      head t = Some GwRequestToken /\ List.filter isRequestToken t = [GwRequestToken])
  /\ (paramTruthy (query req !! "pesapalTrackingId") = true ->
      let t := trace (snd (run (handleTransactionStatus cfg env req) db)) in
      head t = Some GwRequestToken /\ List.filter isRequestToken t = [GwRequestToken]).
Proof.
  split; [|split].
  - intros Ho Hi. unfold handleOrder. rewrite Ho, Hi. cbn [negb orb].
    apply auth_comes_first; intros; unfold json, consoleError; auto 20 with emits.
  - intros Ht Hr. unfold handleCallback. rewrite Ht, Hr. cbn [negb orb].
    apply auth_comes_first; [|intros; unfold send, consoleError; auto 20 with emits].
    intros tok. apply emitsOnly_bind; [auto with emits|]. intros _.
    apply emitsOnly_bind; [auto with emits|]. intros data.
    apply emitsOnly_bind; [auto with emits|]. intros sc.
    apply emitsOnly_bind; [|intros; unfold send; auto with emits].
    apply emitsOnly_if; (apply emitsOnly_bind; [auto with emits|]); intros ref.
    + apply emitsOnly_transaction.
    + apply emitsOnly_docUpdate.
  - intros Ht. unfold handleTransactionStatus, transactionStatus. rewrite Ht.
    cbn [negb].
    apply auth_comes_first; intros; unfold json, consoleError; auto 20 with emits.
Qed.

(** ** The serverless entry point *)

Lemma append_cons c s1 s2 :
  String.append (String c s1) s2 = String c (String.append s1 s2).
Proof. reflexivity. Qed.

Lemma length_append s1 s2 :
  String.length (String.append s1 s2) = (String.length s1 + String.length s2)%nat.
Proof.
  induction s1 as [|c s1 IH]; [reflexivity|].
  rewrite append_cons. cbn. f_equal. exact IH.
Qed.

Lemma substring_app_skip p j m s :
  String.substring (String.length p + j) m (String.append p s) = String.substring j m s.
Proof.
  induction p as [|c p IH]; [reflexivity|].
  rewrite append_cons. exact IH.
Qed.

Lemma substring_split k s :
  (k <= String.length s)%nat ->
  s = String.append (String.substring 0 k s)
                    (String.substring k (String.length s - k) s).
Proof.
  revert s. induction k as [|k IH]; intros s Hk.
  - rewrite Nat.sub_0_r, (substring_0_all (String.length s) s) by lia.
    now destruct s.
  - destruct s as [|c s]; cbn in Hk; [lia|].
    change (String.substring 0 (S k) (String c s))
      with (String c (String.substring 0 k s)).
    rewrite append_cons. f_equal. apply IH. lia.
Qed.

Lemma endsWith_length s suffix :
  Serverless.endsWith s suffix = true -> (String.length suffix <= String.length s)%nat.
Proof.
  unfold Serverless.endsWith. intros H. apply andb_true_iff in H as [H _].
  now apply Nat.leb_le.
Qed.

Lemma endsWith_inv s suffix :
  Serverless.endsWith s suffix = true -> exists p, s = String.append p suffix.
Proof.
  intros H. pose proof (endsWith_length _ _ H) as Hl.
  unfold Serverless.endsWith in H. apply andb_true_iff in H as [_ H].
  apply String.eqb_eq in H.
  exists (String.substring 0 (String.length s - String.length suffix) s).
  rewrite <- H at 2.
  rewrite (substring_split (String.length s - String.length suffix) s) at 1 by lia.
  do 2 f_equal. lia.
Qed.

Lemma endsWith_app p suffix :
  Serverless.endsWith (String.append p suffix) suffix = true.
Proof.
  unfold Serverless.endsWith. rewrite length_append.
  replace (String.length p + String.length suffix - String.length suffix)%nat
    with (String.length p + 0)%nat by lia.
  rewrite substring_app_skip, substring_0_all by lia.
  rewrite String.eqb_refl, andb_true_r. apply Nat.leb_le. lia.
Qed.

(** A string that ends with [a] ends with a string [b] no longer than [a]
    exactly when [a] does. *)
Lemma endsWith_shorter s a b :
  Serverless.endsWith s a = true ->
  (String.length b <= String.length a)%nat ->
  Serverless.endsWith s b = Serverless.endsWith a b.
Proof.
  intros Ha Hl. destruct (endsWith_inv _ _ Ha) as [p ->].
  unfold Serverless.endsWith. rewrite length_append.
  replace (String.length p + String.length a - String.length b)%nat
    with (String.length p + (String.length a - String.length b))%nat by lia.
  rewrite substring_app_skip.
  replace (String.length b <=? String.length p + String.length a)%nat with true
    by (symmetry; apply Nat.leb_le; lia).
  replace (String.length b <=? String.length a)%nat with true
    by (symmetry; apply Nat.leb_le; lia).
  reflexivity.
Qed.

Lemma endsWith_not_short s a b :
  Serverless.endsWith s a = true ->
  (String.length b < String.length a)%nat ->
  String.eqb s b = false.
Proof.
  intros Ha Hl. apply endsWith_length in Ha.
  apply String.eqb_neq. intros ->. lia.
Qed.

Lemma methodIs_other req a b :
  Serverless.methodIs req a = true -> a <> b -> Serverless.methodIs req b = false.
Proof.
  unfold Serverless.methodIs. destruct (Serverless.method req) as [m|]; [|discriminate].
  intros Ha Hne. apply String.eqb_eq in Ha. subst m. now apply String.eqb_neq.
Qed.

(** X22.  The serverless entry point routes by the end of the path and by
    the method, whatever precedes: a POST to a path ending in
    [/pesapal/order] is answered by the order handler, a GET to a path ending
    in [/pesapal/callback] by the callback handler, and a GET to a path
    ending in [/pesapal/transaction-status] by the status handler, each run
    with the serverless configuration and answered under the CORS headers. *)
Theorem serverless_routes_by_suffix processEnv env req w :
  let cfg := serverlessConfig processEnv in
  let hs := Serverless.corsHeaders processEnv in
  let path := Serverless.pathname req in
  (Serverless.methodIs req "POST" = true ->
   Serverless.endsWith path "/pesapal/order" = true ->
   Serverless.handler processEnv env req w
   = Serverless.answer hs (handleOrder cfg env (Serverless.request req)) w)
  /\ (Serverless.methodIs req "GET" = true ->
      Serverless.endsWith path "/pesapal/callback" = true ->
      Serverless.handler processEnv env req w
      = Serverless.answer hs (handleCallback cfg env (Serverless.request req)) w)
  /\ (Serverless.methodIs req "GET" = true ->
      Serverless.endsWith path "/pesapal/transaction-status" = true ->
      Serverless.handler processEnv env req w
      = Serverless.answer hs
          (handleTransactionStatus cfg env (Serverless.request req)) w).
Proof.
  intros cfg hs path. subst cfg hs path. unfold Serverless.handler.
  split; [|split]; intros Hm He.
  - rewrite (methodIs_other _ _ "OPTIONS" Hm) by discriminate.
    rewrite (endsWith_not_short _ _ "/api" He), (endsWith_not_short _ _ "/api/" He)
      by (cbn; lia).
    rewrite (methodIs_other _ _ "GET" Hm) by discriminate.
    rewrite andb_false_r, He, Hm. reflexivity.
  - rewrite (methodIs_other _ _ "OPTIONS" Hm) by discriminate.
    rewrite (endsWith_not_short _ _ "/api" He), (endsWith_not_short _ _ "/api/" He)
      by (cbn; lia).
    rewrite (endsWith_shorter _ _ "/health" He) by (cbn; lia).
    rewrite (methodIs_other _ _ "POST" Hm) by discriminate.
    rewrite andb_false_r, He, Hm. reflexivity.
  - rewrite (methodIs_other _ _ "OPTIONS" Hm) by discriminate.
    rewrite (endsWith_not_short _ _ "/api" He), (endsWith_not_short _ _ "/api/" He)
      by (cbn; lia).
    rewrite (endsWith_shorter _ _ "/health" He) by (cbn; lia).
    rewrite (endsWith_shorter _ _ "/pesapal/callback" He) by (cbn; lia).
    rewrite (methodIs_other _ _ "POST" Hm) by discriminate.
    rewrite andb_false_r, He, Hm. reflexivity.
Qed.

(** X23.  Before any routing, the entry point answers every OPTIONS request
    with an empty 200 under the CORS headers, whatever the path, and runs no
    handler; and it answers the liveness text at [/api] and [/api/] for
    every other method, POST included. *)
Theorem serverless_preflight_and_liveness processEnv env req w :
  (Serverless.methodIs req "OPTIONS" = true ->
   Serverless.handler processEnv env req w =
     (JS.Ok {| Serverless.headers := Serverless.corsHeaders processEnv;
               Serverless.sent := Serverless.Ended 200 |}, w))
  /\ (Serverless.methodIs req "OPTIONS" = false ->
      Serverless.pathname req = "/api" \/ Serverless.pathname req = "/api/" ->
      Serverless.handler processEnv env req w =
        (JS.Ok {| Serverless.headers := Serverless.corsHeaders processEnv;
                  Serverless.sent :=
                    Serverless.Answered
                      {| code := 200; content := Text "✅ Backend is working 🚀" |} |},
         w)).
Proof.
  unfold Serverless.handler. split.
  - intros ->. reflexivity.
  - intros -> [-> | ->]; reflexivity.
Qed.

(** X24.  What matches no route is answered 404 [{message: 'Not Found'}]
    without running a handler or touching the store: a path ending in
    [/pesapal/order] with a method other than POST (and other than OPTIONS),
    and a path ending in [/pesapal/callback] or in
    [/pesapal/transaction-status] with a method other than GET (and other
    than OPTIONS). *)
Theorem serverless_wrong_method_not_found processEnv env req w :
  let path := Serverless.pathname req in
  let notFound :=
    (JS.Ok {| Serverless.headers := Serverless.corsHeaders processEnv;
              Serverless.sent :=
                Serverless.Answered
                  {| code := 404;
                     content := Json (JS.object [ ("message", JS.Str "Not Found") ]) |} |},
     w) in
  Serverless.methodIs req "OPTIONS" = false ->
  (Serverless.endsWith path "/pesapal/order" = true
   /\ Serverless.methodIs req "POST" = false)
  \/ ((Serverless.endsWith path "/pesapal/callback" = true
       \/ Serverless.endsWith path "/pesapal/transaction-status" = true)
      /\ Serverless.methodIs req "GET" = false) ->
  Serverless.handler processEnv env req w = notFound.
Proof.
  intros path notFound Ho H. subst path notFound. unfold Serverless.handler.
  rewrite Ho. destruct H as [[He Hm] | [[He | He] Hm]].
  - rewrite (endsWith_not_short _ _ "/api" He), (endsWith_not_short _ _ "/api/" He)
      by (cbn; lia).
    rewrite (endsWith_shorter _ _ "/health" He) by (cbn; lia).
    rewrite He, Hm.
    destruct (Serverless.endsWith (Serverless.pathname req) "/pesapal/callback") eqn:Ec.
    { rewrite (endsWith_shorter _ _ "/pesapal/order" Ec) in He by (cbn; lia).
      discriminate He. }
    destruct (Serverless.endsWith (Serverless.pathname req)
                "/pesapal/transaction-status") eqn:Et.
    { rewrite (endsWith_shorter _ _ "/pesapal/order" Et) in He by (cbn; lia).
      discriminate He. }
    reflexivity.
  - rewrite (endsWith_not_short _ _ "/api" He), (endsWith_not_short _ _ "/api/" He)
      by (cbn; lia).
    rewrite (endsWith_shorter _ _ "/health" He) by (cbn; lia).
    rewrite (endsWith_shorter _ _ "/pesapal/order" He) by (cbn; lia).
    rewrite Hm, !andb_false_r. reflexivity.
  - rewrite (endsWith_not_short _ _ "/api" He), (endsWith_not_short _ _ "/api/" He)
      by (cbn; lia).
    rewrite (endsWith_shorter _ _ "/health" He) by (cbn; lia).
    rewrite (endsWith_shorter _ _ "/pesapal/order" He) by (cbn; lia).
    rewrite Hm, !andb_false_r. reflexivity.
Qed.

Lemma serverless_wrong_method_not_found_witness :
  Serverless.handler ∅ (Scenario.gateway 1 0)
    (Sample.vercel "POST" "/api/pesapal/callback" Scenario.forgedCallback)
    {| store := Scenario.db "Pending"; pending := []; trace := [] |}
  = (JS.Ok {| Serverless.headers := Serverless.corsHeaders ∅;
              Serverless.sent :=
                Serverless.Answered
                  {| code := 404;
                     content := Json (JS.object [ ("message", JS.Str "Not Found") ]) |} |},
     {| store := Scenario.db "Pending"; pending := []; trace := [] |}).
Proof.
  apply (serverless_wrong_method_not_found ∅ (Scenario.gateway 1 0)
           (Sample.vercel "POST" "/api/pesapal/callback" Scenario.forgedCallback)
           {| store := Scenario.db "Pending"; pending := []; trace := [] |}).
  - reflexivity.
  - right. split; [left|]; reflexivity.
Defined.

Lemma serverless_routes_by_suffix_witness :
  Serverless.handler ∅ (Scenario.gateway 1 0)
    (Sample.vercel "GET" "/v2/shop/pesapal/callback" Scenario.callback)
    {| store := Scenario.db "Pending"; pending := []; trace := [] |}
  = Serverless.answer (Serverless.corsHeaders ∅)
      (handleCallback (serverlessConfig ∅) (Scenario.gateway 1 0) Scenario.callback)
      {| store := Scenario.db "Pending"; pending := []; trace := [] |}.
Proof.
  apply (serverless_routes_by_suffix ∅ (Scenario.gateway 1 0)
           (Sample.vercel "GET" "/v2/shop/pesapal/callback" Scenario.callback)
           {| store := Scenario.db "Pending"; pending := []; trace := [] |});
    reflexivity.
Defined.

Lemma serverless_preflight_and_liveness_witness :
  Serverless.handler ∅ (Scenario.gateway 1 0)
    (Sample.vercel "OPTIONS" "/api/pesapal/order" (Scenario.submission "Jo Doe"))
    {| store := Scenario.db "Pending"; pending := []; trace := [] |}
  = (JS.Ok {| Serverless.headers := Serverless.corsHeaders ∅;
              Serverless.sent := Serverless.Ended 200 |},
     {| store := Scenario.db "Pending"; pending := []; trace := [] |}).
Proof.
  apply (serverless_preflight_and_liveness ∅ (Scenario.gateway 1 0)
           (Sample.vercel "OPTIONS" "/api/pesapal/order" (Scenario.submission "Jo Doe"))
           {| store := Scenario.db "Pending"; pending := []; trace := [] |}).
  reflexivity.
Defined.

Lemma every_invocation_authenticates_once_witness :
  let t := trace (snd (run (handleCallback Scenario.config (Scenario.gateway 1 0)
                              Scenario.callback) (Scenario.db "Pending"))) in
  head t = Some GwRequestToken /\ List.filter isRequestToken t = [GwRequestToken].
Proof.
  apply (every_invocation_authenticates_once Scenario.config (Scenario.gateway 1 0)
           Scenario.callback (Scenario.db "Pending")); reflexivity.
Defined.

(** ** The configuration *)

(** X25.  The URLs the order request announces to the gateway come from the
    environment.  In the Express server the payer's redirect and the
    notification URL share one base: [APP_BASE_URL], or
    [http://localhost:3000] when it is unset or empty.  In the serverless
    function the redirect is the same, while the notification URL is built
    from [VERCEL_URL] alone, whatever [APP_BASE_URL] says, and reads
    [https://undefined/api/pesapal/callback] when [VERCEL_URL] is unset. *)
Theorem order_request_urls_from_environment processEnv order u oid name :
  JS.getProp order "user" = JS.Ok u ->
  JS.getProp u "name" = JS.Ok (JS.Str name) ->
  let base :=
    match processEnv !! "APP_BASE_URL" with
    | Some b => if String.eqb b "" then "http://localhost:3000" else b
    | None => "http://localhost:3000"
    end in
  let host :=
    match processEnv !! "VERCEL_URL" with
    | Some h => h
    | None => "undefined"
    end in
  (exists p,
     pesapalOrderData (expressConfig processEnv) order (JS.Str oid) = JS.Ok p
     /\ JS.getProp p "callback_url"
        = JS.Ok (JS.Str (String.append base "/#/pesapal-callback"))
     /\ JS.getProp p "notification_id"
        = JS.Ok (JS.Str (String.append base "/api/pesapal/callback")))
  /\ (exists p,
        pesapalOrderData (serverlessConfig processEnv) order (JS.Str oid) = JS.Ok p
        /\ JS.getProp p "callback_url"
           = JS.Ok (JS.Str (String.append base "/#/pesapal-callback"))
        /\ JS.getProp p "notification_id"
           = JS.Ok (JS.Str (String.append "https://"
                              (String.append host "/api/pesapal/callback")))).
Proof.
  intros Hu Hn base host. split.
  - exists (orderRequest (expressConfig processEnv) order oid name).
    split; [now apply pesapalOrderData_ok with u|]. split; reflexivity.
  - exists (orderRequest (serverlessConfig processEnv) order oid name).
    split; [now apply pesapalOrderData_ok with u|]. split; reflexivity.
Qed.

Lemma order_request_urls_from_environment_witness :
  (exists p,
     pesapalOrderData (expressConfig {[ "APP_BASE_URL" := "" ]})
       (Scenario.submittedOrder "Jo Doe") (JS.Str "abcdef1234") = JS.Ok p
     /\ JS.getProp p "callback_url"
        = JS.Ok (JS.Str "http://localhost:3000/#/pesapal-callback")
     /\ JS.getProp p "notification_id"
        = JS.Ok (JS.Str "http://localhost:3000/api/pesapal/callback"))
  /\ (exists p,
        pesapalOrderData (serverlessConfig {[ "APP_BASE_URL" := "" ]})
          (Scenario.submittedOrder "Jo Doe") (JS.Str "abcdef1234") = JS.Ok p
        /\ JS.getProp p "callback_url"
           = JS.Ok (JS.Str "http://localhost:3000/#/pesapal-callback")
        /\ JS.getProp p "notification_id"
           = JS.Ok (JS.Str "https://undefined/api/pesapal/callback")).
Proof.
  pose proof (order_request_urls_from_environment {[ "APP_BASE_URL" := "" ]}
                (Scenario.submittedOrder "Jo Doe")
                (JS.object [ ("email", JS.Str "a@b.com"); ("phone", JS.Str "1");
                             ("name", JS.Str "Jo Doe") ])
                "abcdef1234" "Jo Doe") as H.
  vm_compute in H. vm_compute. apply H; reflexivity.
Defined.

(** X26.  A completed callback whose status reply names no payment method
    commits nothing: for a waiting order whose user document exists, the
    transaction reads both documents, the order update is refused because
    [paymentDetails.method] would be [undefined], the transaction aborts
    before any write is issued, the orders and users stay as they were, and
    the handler answers 500. *)
Theorem completed_callback_without_method_is_refused
    cfg env req db tid ref data sc o u :
  query req !! "OrderTrackingId" = Some tid ->
  query req !! "OrderMerchantReference" = Some ref ->
  tid <> "" -> ref <> "" ->
  queriedStatus cfg env (Some tid) = Some data ->
  JS.getProp data "status_code" = JS.Ok sc ->
  JS.strictEqNum sc 1 = true ->
  JS.optProp data "payment_method" = JS.Undefined ->
  Firestore.orders db !! ref = Some o ->
  Firestore.status o <> "Processing" ->
  Firestore.user_id (Firestore.user o) <> "" ->
  Firestore.users db !! Firestore.user_id (Firestore.user o) = Some u ->
  let result := run (handleCallback cfg env req) db in
  fst result = JS.Ok ipnError
  /\ store (snd result) = db
  /\ List.filter isStoreEvent (trace (snd result))
     = [TxBegin; TxGet "orders" ref;
        TxGet "users" (Firestore.user_id (Firestore.user o)); TxAbort]
  /\ List.filter isWrite (trace (snd result)) = [].
Proof.
  intros Htid Href Htid_ne Href_ne Hq Hsc H1 Hpm Ho Hst Hid Hu result.
  destruct (queriedStatus_inv _ _ _ _ Hq) as (tok & Htok & Hdata).
  assert (JS.hasUndefined (JS.optProp data "payment_method") = true) as Hundef
    by (rewrite Hpm; reflexivity).
  subst result.
  rewrite (callback_completed_refused cfg env req db tid ref
             Htid Href Htid_ne Href_ne tok data sc Htok Hdata Hsc o u
             Hundef H1 Ho Hst Hid Hu).
  repeat split.
Qed.

Lemma completed_callback_without_method_is_refused_witness :
  let result := run (handleCallback Scenario.config Replies.completedWithoutMethod
                       Scenario.callback) (Scenario.db "Pending") in
  fst result = JS.Ok ipnError
  /\ store (snd result) = Scenario.db "Pending"
  /\ List.filter isStoreEvent (trace (snd result))
     = [TxBegin; TxGet "orders" "o1"; TxGet "users" "u1"; TxAbort]
  /\ List.filter isWrite (trace (snd result)) = [].
Proof.
  apply (completed_callback_without_method_is_refused Scenario.config
           Replies.completedWithoutMethod Scenario.callback (Scenario.db "Pending")
           "t1" "o1" (JS.object [ ("status_code", JS.Num 1) ]) (JS.Num 1)
           (Scenario.order "Pending") Scenario.user);
    first [ reflexivity | discriminate ].
Defined.
